(** * HDX Python API: the [Resource] class and its datastore upload

    A shallow embedding of [hdx/data/resource.py].  Python values are a
    JSON-like inductive type, dictionaries are [gmap string value], and the
    effects of the methods (remote POST calls, the download, the temporary
    file) are threaded through a state-and-exception monad whose state keeps
    the trace of external calls and the local files. *)

From stdpp Require Import gmap strings list fin_maps pretty.
From Equations Require Import Equations.
From Stdlib Require Import ZArith Ascii.

Set Warnings "-register-all,-abstract-large-number".

(** ** Python values *)

Inductive value : Type :=
| VNone
| VBool (b : bool)
| VInt (z : Z)
| VStr (s : string)
| VList (l : list value)
| VDict (d : gmap string value).

(** Python truthiness, as used by [if not url], [if result], [if count]. *)
Definition truthy (v : value) : bool :=
  match v with
  | VNone => false
  | VBool b => b
  | VInt z => negb (z =? 0)%Z
  | VStr s => negb (String.eqb s "")
  | VList l => match l with [] => false | _ :: _ => true end
  | VDict d => match map_to_list d with [] => false | _ :: _ => true end
  end.

(** ** Exceptions *)

Inductive exn : Type :=
| HDXError (msg : string) (cause : option exn)   (* raise HDXError(msg) [from cause] *)
| KeyError (key : string)
| AttributeError (attr : string)
| TypeError (msg : string)
| OSError (path : string)
| CSVError (msg : string)
| DownloadError
| RemoteFailure (msg : string).

(** ** The outside world

    A remote call is answered with a result, with an ordinary not-found, or
    with a failure ([success:false] or an HTTP-level problem). *)

Inductive reply : Type :=
| Success (result : value)
| NotFound
| Failure (msg : string).

Inductive event : Type :=
| EvPost (action : string) (payload : gmap string value) (r : reply)
| EvDownload (url : value) (path : option string) (got : option string)
| EvUnlink (path : string).

Record world : Type := World {
  trace : list event;            (* external calls, oldest first *)
  files : gmap string string     (* local files: path to text *)
}.

(** The collaborators that live outside [resource.py]: the remote site, the
    downloader, the CSV reader and the YAML/JSON loaders.  The remote site
    and the downloader may answer depending on what happened before. *)
Record env : Type := Env {
  hdxsite : list event → string → gmap string value → reply;
  fetch : list event → value → option string → option (string * string);
  csv_DictReader : string → exn + list value;
  load_yaml : string → exn + value;
  load_json : string → exn + value;
  script_dir_plus_file : string → string
}.

(** ** The monad of methods: state passing with exceptions *)

Definition M (A : Type) : Type := world → (exn + A) * world.

Definition ret {A} (a : A) : M A := λ w, (inr a, w).

Definition raise {A} (e : exn) : M A := λ w, (inl e, w).

Definition bind {A B} (m : M A) (k : A → M B) : M B :=
  λ w, match m w with
       | (inl e, w') => (inl e, w')
       | (inr a, w') => k a w'
       end.

(** [try: body except Exception as e: handler e] *)
Definition try_except {A} (body : M A) (handler : exn → M A) : M A :=
  λ w, match body w with
       | (inl e, w') => handler e w'
       | (inr a, w') => (inr a, w')
       end.

(** [try: body finally: final]; an exception of [final] replaces the
    pending outcome, as in Python. *)
Definition try_finally {A} (body : M A) (final : M unit) : M A :=
  λ w, match body w with
       | (r, w') =>
           match final w' with
           | (inl e, w'') => (inl e, w'')
           | (inr _, w'') => (r, w'')
           end
       end.

(** The outcome of a computation as a value; never raises. *)
Definition attempt {A} (m : M A) : M (exn + A) :=
  λ w, match m w with (r, w') => (inr r, w') end.

#[global] Instance M_ret : MRet M := @ret.
#[global] Instance M_bind : MBind M := λ A B k m, bind m k.

(** ** Dictionaries as the code uses them *)

(** [d[k]] *)
Definition getitem (d : value) (k : string) : M value :=
  match d with
  | VDict m => match m !! k with
               | Some v => ret v
               | None => raise (KeyError k)
               end
  | _ => raise (TypeError "not subscriptable")
  end.

(** [d.get(k, None)] *)
Definition get (d : value) (k : string) : M value :=
  match d with
  | VDict m => ret (default VNone (m !! k))
  | _ => raise (AttributeError "get")
  end.

(** ** Resource *)

(** The configuration is only handed on to the objects that are built. *)
Definition Configuration : Type := string.

Record Resource : Type := mkResource {
  configuration : Configuration;
  data : value
}.

(** [Resource.__init__]: a falsy [initial_data] becomes the empty dict. *)
Definition Resource_init (cfg : Configuration) (initial_data : value) : Resource :=
  if truthy initial_data then mkResource cfg initial_data
  else mkResource cfg (VDict ∅).

Definition actions : gmap string string :=
  list_to_map
    [("show", "resource_show"); ("update", "resource_update");
     ("create", "resource_create"); ("delete", "resource_delete");
     ("search", "resource_search");
     ("datastore_delete", "datastore_delete");
     ("datastore_create", "datastore_create");
     ("datastore_upsert", "datastore_upsert")].

(** [self.actions()[name]] *)
Definition action_of (name : string) : M string :=
  match actions !! name with
  | Some a => ret a
  | None => raise (KeyError name)
  end.

(** [repr] of a string, its characters read as code points below 256:
    single quotes unless the string has a single and no double quote;
    the backslash, the quote, newline, return and tab escaped by a
    backslash, the other characters that do not print written as a
    backslash, [x] and two hexadecimal digits. *)
Definition backslash : ascii := "092"%char.
Definition single_quote : ascii := "039"%char.
Definition double_quote : ascii := "034"%char.

Definition escaped (c : ascii) : string := String backslash (String c "").

Definition hex_digit (n : N) : ascii :=
  default "0"%char (String.list_ascii_of_string "0123456789abcdef" !! N.to_nat n).

Definition escape_char (quote c : ascii) : string :=
  let n := N_of_ascii c in
  if Ascii.eqb c backslash then escaped backslash
  else if Ascii.eqb c quote then escaped quote
  else if (n =? 10)%N then escaped "n"%char
  else if (n =? 13)%N then escaped "r"%char
  else if (n =? 9)%N then escaped "t"%char
  else if (n <? 32)%N || (n =? 127)%N || ((128 <=? n)%N && (n <=? 160)%N) || (n =? 173)%N
       then String backslash
              (String "x"%char (String (hex_digit (n / 16)) (String (hex_digit (n mod 16)) "")))
  else String c "".

Definition has_char (c : ascii) (s : string) : bool :=
  existsb (Ascii.eqb c) (String.list_ascii_of_string s).

Definition repr_str (s : string) : string :=
  let quote := if has_char single_quote s && negb (has_char double_quote s)
               then double_quote else single_quote in
  String quote (String.concat "" (escape_char quote <$> String.list_ascii_of_string s))
    +:+ String quote "".

(** [repr(v)]; the items of a dict come in the order of the map. *)
Fixpoint pyrepr (v : value) : string :=
  match v with
  | VNone => "None"
  | VBool true => "True"
  | VBool false => "False"
  | VInt z => pretty z
  | VStr s => repr_str s
  | VList l => "[" +:+ String.concat ", " (pyrepr <$> l) +:+ "]"
  | VDict d =>
      "{" +:+ String.concat ", "
                ((λ kv, repr_str kv.1 +:+ ": " +:+ kv.2) <$> map_to_list (pyrepr <$> d))
          +:+ "}"
  end.

(** ['%s' % v], that is [str(v)]: a string prints as itself, every other
    value as its [repr]. *)
Definition pystr (v : value) : string :=
  match v with
  | VStr s => s
  | _ => pyrepr v
  end.

(** [for x in v]: the elements of a list, the characters of a string, the
    keys of a dict (in the order of the map). *)
Definition iterate (v : value) : M (list value) :=
  match v with
  | VList l => ret l
  | VStr s => ret ((λ c, VStr (String c "")) <$> String.list_ascii_of_string s)
  | VDict d => ret ((λ kv, VStr kv.1) <$> map_to_list d)
  | _ => raise (TypeError "not iterable")
  end.

Definition chunksize : nat := 10000.

(** [rows[offset:offset + chunksize]] *)
Definition slice {A} (rows : list A) (offset size : nat) : list A :=
  take size (drop offset rows).

Section Methods.
Context (E : env).

(** One POST to the remote site, recorded in the trace with its answer. *)
Definition call_action (action : string) (payload : gmap string value) : M reply :=
  λ w, let r := hdxsite E (trace w) action payload in
       (inr r, World (trace w ++ [EvPost action payload r]) (files w)).

(** Modelled from the spec: [HDXObject._read_from_hdx] of the absent
    [hdxobject.py].  One call of the given action (the type's [show]
    action when none is given) carrying the field and the keyword
    arguments; an ordinary not-found is not an error and yields an absent
    result; any other failure is the single error kind carrying the remote
    message. *)
Definition _read_from_hdx (object_type : string) (v : value) (fieldname : string)
    (action : option string) (kwargs : gmap string value) : M (bool * value) :=
  a ← match action with Some a => ret a | None => action_of "show" end;
  r ← call_action a (<[fieldname := v]> kwargs);
  match r with
  | Success result => ret (true, result)
  | NotFound => ret (false, VNone)
  | Failure msg => raise (HDXError "Failed when trying to read" (Some (RemoteFailure msg)))
  end.

(** Modelled from the spec: [HDXObject._write_to_hdx] of the absent
    [hdxobject.py].  One call of the type's action of that name with the
    full payload; every remote-reported failure is the single error kind
    carrying the remote message. *)
Definition _write_to_hdx (action : string) (payload : gmap string value)
    (id_field_name : string) : M value :=
  a ← action_of action;
  r ← call_action a payload;
  match r with
  | Success result => ret result
  | NotFound => raise (HDXError "Failed when trying to write" (Some (RemoteFailure "Not found")))
  | Failure msg => raise (HDXError "Failed when trying to write" (Some (RemoteFailure msg)))
  end.

(** Modelled from the spec: [download_file] of the absent
    [hdx.utilities.downloader].  Fetches the URL into a local file and
    returns its path. *)
Definition download_file (url : value) (path : option string) : M string :=
  λ w, match fetch E (trace w) url path with
       | Some (p, text) =>
           (inr p, World (trace w ++ [EvDownload url path (Some p)]) (<[p := text]> (files w)))
       | None =>
           (inl DownloadError, World (trace w ++ [EvDownload url path None]) (files w))
       end.

(** [open(path, 'r')] followed by reading; the handle is the text. *)
Definition open_ (path : string) : M string :=
  λ w, match files w !! path with
       | Some text => (inr text, w)
       | None => (inl (OSError path), w)
       end.

(** [os.unlink(path)] *)
Definition unlink (path : string) : M unit :=
  λ w, match files w !! path with
       | Some _ => (inr tt, World (trace w ++ [EvUnlink path]) (delete path (files w)))
       | None => (inl (OSError path), w)
       end.

(** [rows = [row for row in csv.DictReader(f)]] *)
Definition read_rows (f : string) : M (list value) :=
  match csv_DictReader E f with
  | inl e => raise e
  | inr rows => ret rows
  end.

(** *** [Resource.download] *)
Definition download (self : Resource) (path : option string) : M (value * string) :=
  url ← get (data self) "url";
  if negb (truthy url) then raise (HDXError "No URL to download!" None)
  else
    p ← download_file url path;
    ret (url, p).

Definition upsert_payload (id : value) (rowset : list value) : gmap string value :=
  <["resource_id" := id]> (<["force" := VBool true]>
    (<["method" := VStr "upsert"]> (<["records" := VList rowset]> ∅))).

(** The [while offset < len(rows)] loop of [create_datastore]. *)
Equations? upload_loop (self : Resource) (rows : list value) (offset : nat) : M unit
  by wf (length rows - offset) lt :=
  upload_loop self rows offset with decide (offset < length rows) := {
    | left _ =>
        let rowset := slice rows offset chunksize in
        id ← getitem (data self) "id";
        _write_to_hdx "datastore_upsert" (upsert_payload id rowset) "id";;
        upload_loop self rows (offset + chunksize)
    | right _ => ret tt }.
Proof.
  enough (0 < chunksize) by lia.
  apply Nat.ltb_lt. vm_compute. reflexivity.
Defined.

Definition upload_failed (url : value) : string :=
  "Upload to datastore of " +:+ pystr url +:+ " failed!".

Definition create_payload (id schema primary_key : value) : gmap string value :=
  <["resource_id" := id]> (<["force" := VBool true]>
    (<["fields" := schema]> (<["primary_key" := primary_key]> ∅))).

(** *** [Resource.create_datastore]

    The local [f] is set exactly when [open] succeeded, so the
    [if f:] of the [finally] clause is the case split on the outcome of
    [open]: when it failed only the [except] clause runs. *)
Definition create_datastore (self : Resource) (schema primary_key : value) : M unit :=
  '(url, path) ← download self None;
  id ← getitem (data self) "id";
  _write_to_hdx "datastore_create" (create_payload id schema primary_key) "id";;
  opened ← attempt (open_ path);
  match opened with
  | inl e => raise (HDXError (upload_failed url) (Some e))
  | inr f =>
      try_finally
        (try_except
           (rows ← read_rows f;
            upload_loop self rows 0)
           (λ e, raise (HDXError (upload_failed url) (Some e))))
        (unlink path)
  end.

(** *** [Resource.delete_datastore]; [logger.debug] leaves no trace. *)
Definition delete_datastore (self : Resource) : M unit :=
  id ← getitem (data self) "id";
  a ← action_of "datastore_delete";
  '(success, result) ← _read_from_hdx "datastore" id "resource_id" (Some a)
                         {["force" := VBool true]};
  if negb success then ret tt else ret tt.

(** *** [Resource.search_in_hdx]; the keyword arguments are accepted and
    not used. *)
Definition search_in_hdx (cfg : Configuration) (query : value)
    (kwargs : gmap string value) : M (list Resource) :=
  let resource := Resource_init cfg VNone in
  '(success, result) ← _read_from_hdx "resource" query "query" None ∅;
  if truthy result then
    count ← get result "count";
    if truthy count then
      results ← getitem result "results";
      resourcedicts ← iterate results;
      ret (Resource_init cfg <$> resourcedicts)
    else ret []
  else ret [].

(** Modelled from the spec: [HDXObject._load_from_hdx] of the absent
    [hdxobject.py].  Reads the object by its identifier; on success the
    record is populated from the remote response. *)
Definition _load_from_hdx (self : Resource) (object_type : string)
    (identifier : value) : M (bool * Resource) :=
  '(success, result) ← _read_from_hdx object_type identifier "id" None ∅;
  if (success : bool) then ret (true, mkResource (configuration self) result)
  else ret (false, self).

(** *** [Resource.read_from_hdx] *)
Definition read_from_hdx (cfg : Configuration) (identifier : value) : M (option Resource) :=
  let resource := Resource_init cfg VNone in
  '(result, resource) ← _load_from_hdx resource "resource" identifier;
  if (result : bool) then ret (Some resource) else ret None.

(** Modelled from the spec: the identifier check of the absent
    [hdxobject.py].  A record passed to update or delete must carry a
    non-empty identifier field; its absence is a usage error raised
    locally. *)
Definition _check_identifier (self : Resource) (object_type id_field_name : string)
    : M (gmap string value * value) :=
  match data self with
  | VDict d =>
      match d !! id_field_name with
      | Some v => if truthy v then ret (d, v)
                  else raise (HDXError ("No identifier in " +:+ object_type) None)
      | None => raise (HDXError ("No identifier in " +:+ object_type) None)
      end
  | _ => raise (HDXError ("No data in " +:+ object_type) None)
  end.

(** Modelled from the spec: [HDXObject._update_in_hdx] of the absent
    [hdxobject.py].  Requires the identifier, then issues the type's
    [update] action with the record. *)
Definition _update_in_hdx (self : Resource) (object_type id_field_name : string) : M unit :=
  '(d, _) ← _check_identifier self object_type id_field_name;
  _write_to_hdx "update" d id_field_name;;
  ret tt.

(** Modelled from the spec: [HDXObject._delete_from_hdx] of the absent
    [hdxobject.py].  Requires the identifier, then issues the type's
    [delete] action for it. *)
Definition _delete_from_hdx (self : Resource) (object_type id_field_name : string) : M unit :=
  '(_, v) ← _check_identifier self object_type id_field_name;
  _write_to_hdx "delete" {[id_field_name := v]} id_field_name;;
  ret tt.

(** *** [Resource.update_in_hdx] and [Resource.delete_from_hdx] *)
Definition update_in_hdx (self : Resource) : M unit :=
  _update_in_hdx self "resource" "id".

Definition delete_from_hdx (self : Resource) : M unit :=
  _delete_from_hdx self "resource" "id".

(** *** The schema-file variants of [create_datastore] *)
Definition loaded (r : exn + value) : M value :=
  match r with inl e => raise e | inr v => ret v end.

Definition create_datastore_from_dict_schema (self : Resource) (d : value) : M unit :=
  schema ← getitem d "schema";
  primary_key ← get d "primary_key";
  create_datastore self schema primary_key.

Definition create_datastore_from_yaml_schema (self : Resource) (path : string) : M unit :=
  d ← loaded (load_yaml E path);
  create_datastore_from_dict_schema self d.

Definition create_datastore_for_topline (self : Resource) : M unit :=
  d ← loaded (load_yaml E (script_dir_plus_file E "../hdx_datasource_topline.yml"));
  create_datastore_from_dict_schema self d.

Definition create_datastore_from_json_schema (self : Resource) (path : string) : M unit :=
  d ← loaded (load_json E path);
  create_datastore_from_dict_schema self d.

(** *** The [update_datastore] family *)
Definition update_datastore (self : Resource) (schema primary_key : value) : M unit :=
  delete_datastore self;;
  create_datastore self schema primary_key.

Definition update_datastore_from_yaml_schema (self : Resource) (path : string) : M unit :=
  delete_datastore self;;
  create_datastore_from_yaml_schema self path.

Definition update_datastore_for_topline (self : Resource) : M unit :=
  delete_datastore self;;
  create_datastore_for_topline self.

Definition update_datastore_from_json_schema (self : Resource) (path : string) : M unit :=
  delete_datastore self;;
  create_datastore_from_json_schema self path.

End Methods.

(** ** The upload as the specification words it

    Partition the rows into fixed-size batches, then issue one upsert per
    batch, in order, stopping at the first failure. *)

Definition ceil_div (n c : nat) : nat := (n + c - 1) / c.

Definition batches (rows : list value) : list (list value) :=
  (λ k, slice rows (k * chunksize) chunksize) <$> seq 0 (ceil_div (length rows) chunksize).

Fixpoint send_batches (E : env) (id : value) (bs : list (list value)) : M unit :=
  match bs with
  | [] => ret tt
  | b :: bs' =>
      _write_to_hdx E "datastore_upsert" (upsert_payload id b) "id";;
      send_batches E id bs'
  end.

Definition is_success (r : reply) : bool :=
  match r with Success _ => true | _ => false end.

(** [sent id bs t ok]: [t] is the trace of sending the batches [bs] one
    after the other until the first one that is not accepted; [ok] tells
    whether all were accepted. *)
Inductive sent (id : value) : list (list value) → list event → bool → Prop :=
| sent_nil : sent id [] [] true
| sent_ok b bs res t ok :
    sent id bs t ok →
    sent id (b :: bs) (EvPost "datastore_upsert" (upsert_payload id b) (Success res) :: t) ok
| sent_fail b bs r :
    is_success r = false →
    sent id (b :: bs) [EvPost "datastore_upsert" (upsert_payload id b) r] false.

(** The payloads of the upsert calls of a trace, oldest first. *)
Definition upserts_of (t : list event) : list (gmap string value) :=
  omap (λ ev, match ev with
              | EvPost a p _ => if String.eqb a "datastore_upsert" then Some p else None
              | _ => None
              end) t.

(** What a write call and a read call make of the site's answer. *)
Definition write_outcome (r : reply) : exn + value :=
  match r with
  | Success result => inr result
  | NotFound => inl (HDXError "Failed when trying to write" (Some (RemoteFailure "Not found")))
  | Failure msg => inl (HDXError "Failed when trying to write" (Some (RemoteFailure msg)))
  end.

Definition read_outcome (r : reply) : exn + bool * value :=
  match r with
  | Success result => inr (true, result)
  | NotFound => inr (false, VNone)
  | Failure msg => inl (HDXError "Failed when trying to read" (Some (RemoteFailure msg)))
  end.

(** What [search_in_hdx] does with the result of its read. *)
Definition collect (cfg : Configuration) (result : value) : M (list Resource) :=
  if truthy result then
    count ← get result "count";
    if truthy count then
      results ← getitem result "results";
      resourcedicts ← iterate results;
      ret (Resource_init cfg <$> resourcedicts)
    else ret []
  else ret [].

(** The page-size contract as the specification words it: a search that was
    answered with more rows than the requested [limit] fails. *)
Definition rejects_oversized_pages (E : env) : Prop :=
  ∀ cfg query kwargs w (limit : Z) a p d l,
    kwargs !! "limit" = Some (VInt limit) →
    EvPost a p (Success (VDict d)) ∈ trace (search_in_hdx E cfg query kwargs w).2 →
    d !! "results" = Some (VList l) →
    (limit < Z.of_nat (length l))%Z →
    ∃ e, (search_in_hdx E cfg query kwargs w).1 = inl e.

(** The specification's wording of an update of the datastore: delete,
    then, unless that raised, create. *)
Definition delete_then_create (delete create : M unit) : M unit :=
  λ w, match delete w with
       | (inl e, w') => (inl e, w')
       | (inr _, w') => create w'
       end.

(** ** Properties of computations *)

(** A computation that leaves the world alone. *)
Definition pure {A} (m : M A) : Prop := ∀ w, (m w).2 = w.

Definition is_call (ev : event) : bool :=
  match ev with
  | EvPost _ _ _ | EvDownload _ _ _ => true
  | EvUnlink _ => false
  end.

(** Any call that did not succeed. *)
Definition failed (ev : event) : bool :=
  match ev with
  | EvPost _ _ r => negb (is_success r)
  | EvDownload _ _ None => true
  | _ => false
  end.

(** The actions that are issued through [_read_from_hdx]. *)
Definition read_style (a : string) : bool :=
  String.eqb a "resource_show" || String.eqb a "datastore_delete".

(** A failed call other than the ordinary not-found of a read-style call. *)
Definition fatal (ev : event) : bool :=
  match ev with
  | EvPost a _ NotFound => negb (read_style a)
  | EvPost _ _ (Failure _) => true
  | EvDownload _ _ None => true
  | _ => false
  end.

(** [surfaces bad m]: whenever a call made by [m] is [bad], [m] raises and
    makes no call after it. *)
Definition surfaces {A} (bad : event → bool) (m : M A) : Prop :=
  ∀ w t1 ev t2,
    trace (m w).2 = trace w ++ t1 ++ ev :: t2 →
    bad ev = true →
    (∃ e, (m w).1 = inl e) ∧ Forall (λ ev', is_call ev' = false) t2.

(** The same, in the shape that composes: the new part of the trace has no
    fatal call, or the computation raised and nothing but a last call and
    local cleanup follows the calls that went well. *)
Definition prompt {A} (m : M A) : Prop :=
  ∀ w, ∃ t,
    trace (m w).2 = trace w ++ t ∧
    (Forall (λ ev, fatal ev = false) t ∨
     ((∃ e, (m w).1 = inl e) ∧
      ∃ t0 ev t2, t = t0 ++ ev :: t2 ∧
                  Forall (λ ev, fatal ev = false) t0 ∧
                  Forall (λ ev, is_call ev = false) t2)).

(** ** Example records and environments *)

Definition example_rows : list value :=
  [VDict {["a" := VStr "1"]}; VDict {["a" := VStr "2"]}; VDict {["a" := VStr "3"]}].

Definition example_record : gmap string value :=
  <["id" := VStr "de6549d8"]> {["url" := VStr "http://resource1.csv"]}.

Definition example_resource : Resource := mkResource "test" (VDict example_record).

(** A record with a URL that was never given an identifier. *)
Definition unsaved_resource : Resource :=
  mkResource "test" (VDict {["url" := VStr "http://resource1.csv"]}).

Definition empty_world : world := World [] ∅.

Definition example_schema : exn + value := inr (VDict {["schema" := VList []]}).

(** A site that answers every call by [answer], with a downloader that
    always delivers a file of three rows. *)
Definition site (answer : string → reply) : env :=
  Env (λ _ a _, answer a)
      (λ _ _ _, Some ("/tmp/resource1.csv", "a"))
      (λ _, inr example_rows)
      (λ _, example_schema) (λ _, example_schema) id.

Definition accepting : env := site (λ _, Success (VDict ∅)).

Definition refusing (action : string) (r : reply) : env :=
  site (λ a, if String.eqb a action then r else Success (VDict ∅)).

Definition refusing_upserts : env := refusing "datastore_upsert" (Failure "Validation Error").

Definition refusing_create : env := refusing "datastore_create" (Failure "Validation Error").

(** A site on which the resource has no datastore table yet. *)
Definition datastore_missing : env := refusing "datastore_delete" NotFound.

(** A site whose search answers with two rows and a total count of ten,
    whatever was asked. *)
Definition row1 : value := VDict {["id" := VStr "r1"]}.
Definition row2 : value := VDict {["id" := VStr "r2"]}.

Definition oversized : env :=
  site (λ _, Success (VDict (<["count" := VInt 10]> {["results" := VList [row1; row2]]}))).

(** ** Creating a record

    Modelled from the spec: [HDXObject._check_required_fields] and
    [HDXObject._create_in_hdx] of the absent [hdxobject.py].  The fields a
    record of the type must carry are listed by the absent configuration;
    they are the argument [required].  A record that lacks one of them is
    refused locally.  As the docstring of [Resource.create_in_hdx] has it,
    a record that exists on the site (its identifier can be read) is
    updated, any other is created; on success the local fields are replaced
    by the remote response. *)
Definition _check_required_fields (required : list string) (self : Resource)
    (object_type : string) : M (gmap string value) :=
  match data self with
  | VDict d =>
      if forallb (λ f, bool_decide (is_Some (d !! f))) required then ret d
      else raise (HDXError ("Field missing in " +:+ object_type) None)
  | _ => raise (HDXError ("No data in " +:+ object_type) None)
  end.

Definition _create_in_hdx (E : env) (required : list string) (self : Resource)
    (object_type id_field_name name_field_name : string) : M Resource :=
  d ← _check_required_fields required self object_type;
  found ← match d !! id_field_name with
          | Some v =>
              '(success, _) ← _read_from_hdx E object_type v id_field_name None ∅;
              ret (success : bool)
          | None => ret false
          end;
  result ← _write_to_hdx E (if (found : bool) then "update" else "create") d id_field_name;
  ret (mkResource (configuration self) result).

(** *** [Resource.create_in_hdx] *)
Definition create_in_hdx (E : env) (required : list string) (self : Resource) : M Resource :=
  _create_in_hdx E required self "resource" "id" "name".

(** ** What an operation needs in order to return normally *)

Definition returns {A} (m : M A) (w : world) : Prop := ∃ a, (m w).1 = inr a.

Definition has_id (self : Resource) : Prop :=
  ∃ d id, data self = VDict d ∧ d !! "id" = Some id.

Definition identified (self : Resource) : Prop :=
  ∃ d id, data self = VDict d ∧ d !! "id" = Some id ∧ truthy id = true.

Definition has_fields (required : list string) (self : Resource) : Prop :=
  ∃ d, data self = VDict d ∧ Forall (λ f, is_Some (d !! f)) required.

(** The record has a URL and the downloader delivers its file. *)
Definition downloadable (E : env) (self : Resource) (target : option string) (w : world)
    : Prop :=
  ∃ d url path text,
    data self = VDict d ∧ d !! "url" = Some url ∧ truthy url = true ∧
    fetch E (trace w) url target = Some (path, text).

(** Every step of [create_datastore] before the upserts went well: the
    record has an identifier and a URL, the file arrived, the table was
    created and the file parsed. *)
Definition uploadable (E : env) (self : Resource) (schema primary_key : value) (w : world)
    : Prop :=
  ∃ d id url path text res rows,
    data self = VDict d ∧ d !! "id" = Some id ∧ d !! "url" = Some url ∧
    truthy url = true ∧ fetch E (trace w) url None = Some (path, text) ∧
    hdxsite E (trace w ++ [EvDownload url None (Some path)]) "datastore_create"
      (create_payload id schema primary_key) = Success res ∧
    csv_DictReader E text = inr rows.

(** The schema was loaded, is a dictionary with a [schema], and the upload
    with it could go ahead. *)
Definition schema_uploadable (E : env) (self : Resource) (schema_file : exn + value)
    (w : world) : Prop :=
  ∃ d schema,
    schema_file = inr (VDict d) ∧ d !! "schema" = Some schema ∧
    uploadable E self schema (default VNone (d !! "primary_key")) w.

Definition iterable (v : value) : Prop :=
  match v with
  | VList _ | VStr _ | VDict _ => True
  | _ => False
  end.

(** A search result that [search_in_hdx] can read. *)
Definition readable (result : value) : Prop :=
  truthy result = false ∨
  ∃ d, result = VDict d ∧
       (d !! "count" = None ∨
        (∃ c, d !! "count" = Some c ∧ truthy c = false) ∨
        (∃ c results, d !! "count" = Some c ∧ truthy c = true ∧
                      d !! "results" = Some results ∧ iterable results)).

(** ** Outcomes of [create_datastore]

    [created E self schema primary_key w (o, w')]: the ways an invocation
    started in [w] can end, with its outcome and the world it leaves.  The
    constructors follow the statements of the method in order. *)
Inductive created (E : env) (self : Resource) (schema primary_key : value) (w : world)
  : (exn + unit) * world → Prop :=
| created_no_record :
    (∀ d, data self ≠ VDict d) →
    created E self schema primary_key w (inl (AttributeError "get"), w)
| created_no_url d :
    data self = VDict d →
    (d !! "url" = None ∨ ∃ v, d !! "url" = Some v ∧ truthy v = false) →
    created E self schema primary_key w (inl (HDXError "No URL to download!" None), w)
| created_no_file d url :
    data self = VDict d → d !! "url" = Some url → truthy url = true →
    fetch E (trace w) url None = None →
    created E self schema primary_key w
      (inl DownloadError, World (trace w ++ [EvDownload url None None]) (files w))
| created_no_id d url path text :
    data self = VDict d → d !! "url" = Some url → truthy url = true →
    fetch E (trace w) url None = Some (path, text) →
    d !! "id" = None →
    created E self schema primary_key w
      (inl (KeyError "id"),
       World (trace w ++ [EvDownload url None (Some path)]) (<[path := text]> (files w)))
| created_refused d url path text id r cause :
    data self = VDict d → d !! "url" = Some url → truthy url = true →
    fetch E (trace w) url None = Some (path, text) →
    d !! "id" = Some id →
    hdxsite E (trace w ++ [EvDownload url None (Some path)]) "datastore_create"
      (create_payload id schema primary_key) = r →
    is_success r = false →
    created E self schema primary_key w
      (inl (HDXError "Failed when trying to write" (Some cause)),
       World (trace w ++ [EvDownload url None (Some path);
                          EvPost "datastore_create" (create_payload id schema primary_key) r])
             (<[path := text]> (files w)))
| created_unreadable d url path text id res e :
    data self = VDict d → d !! "url" = Some url → truthy url = true →
    fetch E (trace w) url None = Some (path, text) →
    d !! "id" = Some id →
    hdxsite E (trace w ++ [EvDownload url None (Some path)]) "datastore_create"
      (create_payload id schema primary_key) = Success res →
    csv_DictReader E text = inl e →
    created E self schema primary_key w
      (inl (HDXError (upload_failed url) (Some e)),
       World (trace w ++ [EvDownload url None (Some path);
                          EvPost "datastore_create" (create_payload id schema primary_key)
                            (Success res);
                          EvUnlink path])
             (delete path (files w)))
| created_uploaded d url path text id res rows t ok o :
    data self = VDict d → d !! "url" = Some url → truthy url = true →
    fetch E (trace w) url None = Some (path, text) →
    d !! "id" = Some id →
    hdxsite E (trace w ++ [EvDownload url None (Some path)]) "datastore_create"
      (create_payload id schema primary_key) = Success res →
    csv_DictReader E text = inr rows →
    sent id (batches rows) t ok →
    (if ok then o = inr tt else ∃ c, o = inl (HDXError (upload_failed url) (Some c))) →
    created E self schema primary_key w
      (o,
       World (trace w ++ [EvDownload url None (Some path);
                          EvPost "datastore_create" (create_payload id schema primary_key)
                            (Success res)]
                ++ t ++ [EvUnlink path])
             (delete path (files w))).

(** The rows carried by an upsert payload, and the rows that were sent
    between two worlds. *)
Definition records_of (p : gmap string value) : list value :=
  match p !! "records" with
  | Some (VList rows) => rows
  | _ => []
  end.

Definition rows_sent (before after : world) : list value :=
  concat (records_of <$> upserts_of (drop (length (trace before)) (trace after))).

Definition is_post (ev : event) : bool :=
  match ev with EvPost _ _ _ => true | _ => false end.

(** The payload of the one call of [delete_datastore]. *)
Definition delete_payload (id : value) : gmap string value :=
  <["resource_id" := id]> {["force" := VBool true]}.

(** More example environments: a file that the CSV reader rejects, a file
    without rows, schema files that cannot be loaded or lack the schema, a
    URL that cannot be fetched. *)
Definition unreadable_csv : env :=
  Env (hdxsite accepting) (fetch accepting) (λ _, inl (CSVError "line contains NUL"))
      (load_yaml accepting) (load_json accepting) id.

Definition empty_csv : env :=
  Env (hdxsite accepting) (fetch accepting) (λ _, inr [])
      (load_yaml accepting) (load_json accepting) id.

Definition missing_schema_file : env :=
  Env (hdxsite accepting) (fetch accepting) (csv_DictReader accepting)
      (λ path, inl (OSError path)) (λ path, inl (OSError path)) id.

Definition unreachable : env :=
  Env (hdxsite accepting) (λ _ _ _, None) (csv_DictReader accepting)
      (load_yaml accepting) (load_json accepting) id.

(** A record that has an identifier and no URL. *)
Definition urlless_resource : Resource :=
  mkResource "test" (VDict {["id" := VStr "de6549d8"]}).

(** ** Arithmetic of the batches *)

Lemma chunksize_pos : 0 < chunksize.
Proof. apply Nat.ltb_lt. vm_compute. reflexivity. Qed.

Lemma ceil_div_gt (n c j : nat) : 0 < c → j < ceil_div n c ↔ j * c < n.
Proof.
  intros Hc. unfold ceil_div. split.
  - intros Hj.
    assert (c * S j ≤ n + c - 1) as H.
    { etrans; [apply Nat.mul_le_mono_l, Hj|]. apply Nat.Div0.mul_div_le. }
    nia.
  - intros Hj. apply (Nat.div_le_lower_bound (n + c - 1) c (S j)); [lia | nia].
Qed.

Lemma ceil_div_le (n c j : nat) : 0 < c → ceil_div n c ≤ j ↔ n ≤ j * c.
Proof. intros Hc. pose proof (ceil_div_gt n c j Hc). lia. Qed.

Lemma length_batches (rows : list value) :
  length (batches rows) = ceil_div (length rows) chunksize.
Proof. unfold batches. by rewrite length_fmap, length_seq. Qed.

Lemma batches_lookup (rows : list value) (k : nat) :
  k < ceil_div (length rows) chunksize →
  batches rows !! k = Some (slice rows (k * chunksize) chunksize).
Proof.
  intros Hk. unfold batches. rewrite list_lookup_fmap, lookup_seq_lt by done. done.
Qed.

Lemma drop_batches (rows : list value) (j : nat) :
  drop j (batches rows)
  = (λ k, slice rows (k * chunksize) chunksize)
      <$> seq j (ceil_div (length rows) chunksize - j).
Proof.
  unfold batches. rewrite <- fmap_drop. f_equal. apply skipn_seq.
Qed.

Lemma batches_concat_from (rows : list value) (j : nat) :
  concat (drop j (batches rows)) = drop (j * chunksize) rows.
Proof.
  rewrite drop_batches.
  remember (ceil_div (length rows) chunksize - j) as m eqn:Hm.
  revert j Hm. induction m as [|m IH]; intros j Hm; simpl.
  - symmetry. apply drop_ge. apply ceil_div_le; [apply chunksize_pos | lia].
  - rewrite IH by lia. unfold slice.
    replace (S j * chunksize) with (j * chunksize + chunksize) by lia.
    rewrite <- drop_drop. apply take_drop.
Qed.

Lemma batches_concat (rows : list value) : concat (batches rows) = rows.
Proof. apply (batches_concat_from rows 0). Qed.

Lemma batches_sizes (rows : list value) (k : nat) (b : list value) :
  batches rows !! k = Some b →
  (S k < length (batches rows) → length b = chunksize) ∧
  (S k = length (batches rows) →
     length b = length rows - k * chunksize ∧ 0 < length b ≤ chunksize).
Proof.
  intros Hb. pose proof chunksize_pos as Hc.
  assert (k < ceil_div (length rows) chunksize) as Hk.
  { rewrite <- length_batches. by eapply lookup_lt_Some. }
  rewrite batches_lookup in Hb by done. injection Hb as <-.
  unfold slice. rewrite length_take, length_drop, length_batches.
  pose proof (proj1 (ceil_div_gt _ _ _ Hc) Hk) as Hlt.
  split.
  - intros HS. apply (ceil_div_gt _ _ _ Hc) in HS. lia.
  - intros HS.
    assert (length rows ≤ S k * chunksize) as Hle.
    { apply ceil_div_le; [done | lia]. }
    lia.
Qed.

Example batches_of_25000 :
  length <$> batches (replicate 25000 VNone) = [10000; 10000; 5000].
Proof. vm_compute. reflexivity. Qed.

Example batches_of_20000 :
  length <$> batches (replicate 20000 VNone) = [10000; 10000].
Proof. vm_compute. reflexivity. Qed.

Example batches_of_none : batches [] = [].
Proof. vm_compute. reflexivity. Qed.

(** ** The monad, unfolded *)

Lemma bind_run {A B} (m : M A) (k : A → M B) (w : world) :
  (m ≫= k) w = match m w with
               | (inl e, w') => (inl e, w')
               | (inr a, w') => k a w'
               end.
Proof. reflexivity. Qed.

Lemma getitem_dict (d : gmap string value) (k : string) (v : value) (w : world) :
  d !! k = Some v → getitem (VDict d) k w = (inr v, w).
Proof. intros H. unfold getitem. by rewrite H. Qed.

(** ** The loop sends the batches *)

Lemma upload_loop_send_from (E : env) (self : Resource) (d : gmap string value)
    (id : value) (rows : list value) :
  data self = VDict d → d !! "id" = Some id →
  ∀ j w, upload_loop E self rows (j * chunksize) w
         = send_batches E id (drop j (batches rows)) w.
Proof.
  intros Hd Hid j. pose proof chunksize_pos as Hc.
  remember (ceil_div (length rows) chunksize - j) as m eqn:Hm.
  revert j Hm. induction m as [|m IH]; intros j Hm w;
    rewrite upload_loop_equation_1, drop_batches, <- Hm;
    destruct (decide (j * chunksize < length rows)) as [Hlt|Hge]; simpl.
  - pose proof (proj2 (ceil_div_gt _ _ _ Hc) Hlt). lia.
  - done.
  - rewrite Hd, !bind_run, (getitem_dict d "id" id) by done.
    rewrite !bind_run.
    destruct (_write_to_hdx E _ _ _ w) as [[e|v] w1]; [done|].
    replace (j * chunksize + chunksize) with (S j * chunksize) by lia.
    rewrite (IH (S j)), drop_batches by lia.
    by replace (ceil_div (length rows) chunksize - S j) with m by lia.
  - exfalso. apply Hge. apply (proj1 (ceil_div_gt _ _ _ Hc)). lia.
Qed.

Lemma upload_loop_send (E : env) (self : Resource) (d : gmap string value)
    (id : value) (rows : list value) (w : world) :
  data self = VDict d → d !! "id" = Some id →
  upload_loop E self rows 0 w = send_batches E id (batches rows) w.
Proof. intros Hd Hid. apply (upload_loop_send_from E self d id rows Hd Hid 0). Qed.

(** ** One write call *)

Lemma write_run (E : env) (name a : string) (p : gmap string value) (f : string) (w : world) :
  actions !! name = Some a →
  _write_to_hdx E name p f w
  = (write_outcome (hdxsite E (trace w) a p),
     World (trace w ++ [EvPost a p (hdxsite E (trace w) a p)]) (files w)).
Proof.
  intros Ha. unfold _write_to_hdx, action_of. rewrite Ha.
  rewrite !bind_run. simpl. unfold call_action. rewrite bind_run.
  by destruct (hdxsite E (trace w) a p).
Qed.

Lemma write_outcome_success (r : reply) :
  is_success r = true → ∃ res, r = Success res ∧ write_outcome r = inr res.
Proof. destruct r; naive_solver. Qed.

Lemma write_outcome_failure (r : reply) :
  is_success r = false →
  ∃ c, write_outcome r = inl (HDXError "Failed when trying to write" (Some c)).
Proof. destruct r; naive_solver. Qed.

(** ** What sending the batches leaves in the trace *)

Lemma send_batches_sent (E : env) (id : value) (bs : list (list value)) (w : world) :
  ∃ t ok,
    sent id bs t ok ∧
    trace (send_batches E id bs w).2 = trace w ++ t ∧
    files (send_batches E id bs w).2 = files w ∧
    if ok then (send_batches E id bs w).1 = inr tt
    else ∃ c, (send_batches E id bs w).1
              = inl (HDXError "Failed when trying to write" (Some c)).
Proof.
  revert w. induction bs as [|b bs IH]; intros w; simpl.
  - exists [], true. rewrite app_nil_r. eauto using sent.
  - rewrite bind_run, (write_run E _ "datastore_upsert") by done.
    set (r := hdxsite E (trace w) "datastore_upsert" (upsert_payload id b)).
    destruct (is_success r) eqn:Hr.
    + destruct (write_outcome_success r Hr) as (res & Hres & ->).
      destruct (IH (World (trace w ++ [EvPost "datastore_upsert" (upsert_payload id b) r])
                      (files w))) as (t & ok & Hs & Ht & Hf & Hok).
      exists (EvPost "datastore_upsert" (upsert_payload id b) r :: t), ok.
      rewrite Ht, Hf. simpl. rewrite <- app_assoc. simpl.
      split_and!; [rewrite Hres; by constructor | done | done | done].
    + destruct (write_outcome_failure r Hr) as (c & ->). simpl.
      exists [EvPost "datastore_upsert" (upsert_payload id b) r], false.
      split_and!; [by constructor | done | done | eauto].
Qed.

Lemma sent_upserts (id : value) (bs : list (list value)) (t : list event) (ok : bool) :
  sent id bs t ok →
  upserts_of t `prefix_of` (upsert_payload id <$> bs) ∧
  (ok = true → upserts_of t = upsert_payload id <$> bs) ∧
  length (upserts_of t) = length t.
Proof.
  induction 1 as [|b bs res t ok Hs (IH1 & IH2 & IH3)|b bs r Hr]; simpl.
  - split_and!; done.
  - split_and!.
    + by apply prefix_cons.
    + intros Hok. by rewrite IH2.
    + by rewrite IH3.
  - split_and!; [|done|done].
    apply prefix_cons, prefix_nil.
Qed.

Lemma sent_failure_last (id : value) (bs : list (list value)) (t : list event) (ok : bool)
    (t1 t2 : list event) (a : string) (p : gmap string value) (r : reply) :
  sent id bs t ok →
  t = t1 ++ EvPost a p r :: t2 → is_success r = false →
  ok = false ∧ t2 = [].
Proof.
  intros Hs. revert t1. induction Hs as [|b bs res t ok Hs IH|b bs r' Hr]; intros t1 Ht Hfail.
  - by destruct t1.
  - destruct t1 as [|ev t1]; simplify_eq/=. by eapply IH.
  - destruct t1 as [|ev t1]; simplify_eq/=; [done|]. by destruct t1.
Qed.

(** ** [download], step by step *)

Lemma download_run (E : env) (self : Resource) (path : option string) (w : world)
    (d : gmap string value) :
  data self = VDict d →
  download E self path w
  = let url := default VNone (d !! "url") in
    if truthy url then
      match fetch E (trace w) url path with
      | Some (p, text) =>
          (inr (url, p),
           World (trace w ++ [EvDownload url path (Some p)]) (<[p := text]> (files w)))
      | None =>
          (inl DownloadError, World (trace w ++ [EvDownload url path None]) (files w))
      end
    else (inl (HDXError "No URL to download!" None), w).
Proof.
  intros Hd. unfold download. rewrite Hd, bind_run. simpl.
  destruct (truthy (default VNone (d !! "url"))); simpl; [|done].
  rewrite bind_run. unfold download_file.
  by destruct (fetch E (trace w) _ path) as [[p text]|].
Qed.

Lemma download_not_dict (E : env) (self : Resource) (path : option string) (w : world) :
  (∀ d, data self ≠ VDict d) →
  download E self path w = (inl (AttributeError "get"), w).
Proof.
  intros Hd. unfold download. rewrite bind_run.
  destruct (data self); try done. by destruct (Hd d).
Qed.

(** ** [create_datastore] once the file is there and the table is created *)

Section Upload.
Context (E : env) (self : Resource) (schema primary_key : value) (w : world).
Context (d : gmap string value) (id url : value) (path text : string) (res : value).


Hypothesis Hdata : data self = VDict d.
Hypothesis Hid : d !! "id" = Some id.
Hypothesis Hurl : d !! "url" = Some url.
Hypothesis Htruthy : truthy url = true.
Hypothesis Hfetch : fetch E (trace w) url None = Some (path, text).
Hypothesis Hcreate :
  hdxsite E (trace w ++ [EvDownload url None (Some path)]) "datastore_create"
    (create_payload id schema primary_key) = Success res.

Lemma create_datastore_opened :
  create_datastore E self schema primary_key w
  = try_finally
      (try_except
         (rows ← read_rows E text; upload_loop E self rows 0)
         (λ e, raise (HDXError (upload_failed url) (Some e))))
      (unlink path)
      (World (trace w ++ [EvDownload url None (Some path);
                       EvPost "datastore_create" (create_payload id schema primary_key)
                         (Success res)])
             (<[path := text]> (files w))).
Proof.
  unfold create_datastore.
  rewrite bind_run, (download_run E self None w d Hdata), Hurl. simpl.
  rewrite Htruthy, Hfetch, Hdata, bind_run, (getitem_dict d "id" id) by done.
  rewrite bind_run, (write_run E _ "datastore_create") by done. simpl.
  rewrite Hcreate. simpl.
  rewrite bind_run. unfold attempt, open_. simpl.
  rewrite lookup_insert_eq, <- app_assoc. done.
Qed.

Lemma create_datastore_upload (rows : list value) :
  csv_DictReader E text = inr rows →
  ∃ t ok,
    sent id (batches rows) t ok ∧
    trace (create_datastore E self schema primary_key w).2
      = trace w ++ [EvDownload url None (Some path);
                       EvPost "datastore_create" (create_payload id schema primary_key)
                         (Success res)]
          ++ t ++ [EvUnlink path] ∧
    files (create_datastore E self schema primary_key w).2 = delete path (files w) ∧
    if ok then (create_datastore E self schema primary_key w).1 = inr tt
    else ∃ c, (create_datastore E self schema primary_key w).1
              = inl (HDXError (upload_failed url) (Some c)).
Proof.
  intros Hcsv. rewrite create_datastore_opened.
  unfold try_finally, try_except. rewrite bind_run.
  unfold read_rows. rewrite Hcsv. simpl.
  rewrite (upload_loop_send E self d id rows) by done.
  set (w0 := World (trace w ++ [EvDownload url None (Some path);
                       EvPost "datastore_create" (create_payload id schema primary_key)
                         (Success res)])
                   (<[path := text]> (files w))).
  destruct (send_batches_sent E id (batches rows) w0) as (t & ok & Hs & Ht & Hf & Hok).
  exists t, ok.
  destruct (send_batches E id (batches rows) w0) as [r1 w1]. simpl in *.
  assert (files w1 !! path = Some text) as Hp by (rewrite Hf; apply lookup_insert_eq).
  assert (delete path (files w1) = delete path (files w)) as Hdel
    by (rewrite Hf; apply delete_insert_eq).
  destruct ok.
  - subst r1. simpl. unfold unlink. rewrite Hp. simpl.
    rewrite Ht, Hdel, <- !app_assoc. done.
  - destruct Hok as (c & ->). simpl. unfold unlink. rewrite Hp. simpl.
    rewrite Ht, Hdel, <- !app_assoc. eauto.
Qed.

Lemma create_datastore_unreadable (e : exn) :
  csv_DictReader E text = inl e →
  create_datastore E self schema primary_key w
  = (inl (HDXError (upload_failed url) (Some e)),
     World (trace w ++ [EvDownload url None (Some path);
                        EvPost "datastore_create" (create_payload id schema primary_key)
                          (Success res);
                        EvUnlink path])
           (delete path (files w))).
Proof.
  intros Hcsv. rewrite create_datastore_opened.
  unfold try_finally, try_except. rewrite bind_run.
  unfold read_rows. rewrite Hcsv. simpl. unfold unlink. simpl.
  rewrite lookup_insert_eq, delete_insert_eq, <- app_assoc. done.
Qed.

Lemma create_datastore_refused :
  is_success (hdxsite E (trace w ++ [EvDownload url None (Some path)]) "datastore_create"
                (create_payload id schema primary_key)) = false →
  ∃ cause,
    create_datastore E self schema primary_key w
    = (inl (HDXError "Failed when trying to write" (Some cause)),
       World (trace w ++ [EvDownload url None (Some path);
                          EvPost "datastore_create" (create_payload id schema primary_key)
                            (hdxsite E (trace w ++ [EvDownload url None (Some path)])
                               "datastore_create" (create_payload id schema primary_key))])
             (<[path := text]> (files w))).
Proof.
  intros Hrefused.
  destruct (write_outcome_failure _ Hrefused) as (cause & Hcause). exists cause.
  unfold create_datastore.
  rewrite bind_run, (download_run E self None w d Hdata), Hurl. simpl.
  rewrite Htruthy, Hfetch, Hdata, bind_run, (getitem_dict d "id" id) by done.
  rewrite bind_run, (write_run E _ "datastore_create") by done. simpl.
  rewrite Hcause, <- app_assoc. done.
Qed.
End Upload.

Lemma send_batches_accepted (E : env) (id : value) (bs : list (list value)) (w : world) :
  (∀ t p, is_success (hdxsite E t "datastore_upsert" p) = true) →
  (send_batches E id bs w).1 = inr tt.
Proof.
  intros Hacc. revert w. induction bs as [|b bs IH]; intros w; simpl; [done|].
  rewrite bind_run, (write_run E _ "datastore_upsert") by done.
  destruct (write_outcome_success _ (Hacc (trace w) (upsert_payload id b))) as (res & _ & ->).
  apply IH.
Qed.

Lemma upserts_of_app (t1 t2 : list event) :
  upserts_of (t1 ++ t2) = upserts_of t1 ++ upserts_of t2.
Proof. apply omap_app. Qed.

(** C1: for a record that carries an [id], once the file is downloaded and
    parses into [rows], [create_datastore]
    partitions the rows into exactly [ceil (N / 10000)] batches, each of
    10000 rows except a possibly shorter last one, which concatenated give
    the rows back; the [datastore_upsert] calls it issues are, in order, the
    payloads of these batches (a prefix of them, and all of them, one call
    per batch, when the operation succeeds, which it does when the site
    accepts every call); every payload carries [force = True] and the rows
    of its batch.  The calls are the successive entries of one sequential
    trace. *)
Theorem create_datastore_batches (E : env) (self : Resource) (schema primary_key : value)
    (w : world) (d : gmap string value) (id url : value) (path text : string)
    (rows : list value) :
  data self = VDict d →
  d !! "id" = Some id →
  d !! "url" = Some url →
  truthy url = true →
  fetch E (trace w) url None = Some (path, text) →
  csv_DictReader E text = inr rows →
  let run := create_datastore E self schema primary_key w in
  length (batches rows) = ceil_div (length rows) 10000 ∧
  concat (batches rows) = rows ∧
  (∀ k b, batches rows !! k = Some b →
     (S k < length (batches rows) → length b = 10000) ∧
     (S k = length (batches rows) → 0 < length b ≤ 10000)) ∧
  (∃ issued,
     upserts_of (trace run.2) = upserts_of (trace w) ++ issued ∧
     issued `prefix_of` (upsert_payload id <$> batches rows) ∧
     (run.1 = inr tt →
      issued = upsert_payload id <$> batches rows ∧
      length issued = ceil_div (length rows) 10000) ∧
     ((∀ t a p, is_success (hdxsite E t a p) = true) → run.1 = inr tt)) ∧
  (∀ b, upsert_payload id b !! "force" = Some (VBool true) ∧
        upsert_payload id b !! "records" = Some (VList b)).
Proof.
  intros Hd Hid Hurl Htr Hfetch Hcsv run.
  change 10000 with chunksize.
  split_and!.
  - apply length_batches.
  - apply batches_concat.
  - intros k b Hb. destruct (batches_sizes rows k b Hb) as [H1 H2].
    split; [done|]. intros HS. by destruct (H2 HS).
  - subst run.
    destruct (hdxsite E (trace w ++ [EvDownload url None (Some path)]) "datastore_create"
                (create_payload id schema primary_key)) as [res| |msg] eqn:Hcreate.
    2,3: destruct (create_datastore_refused E self schema primary_key w d id url path text
                     Hd Hid Hurl Htr Hfetch) as (cause & Hrun); [by rewrite Hcreate|];
         rewrite Hrun; simpl; exists []; rewrite !upserts_of_app, Hcreate; simpl;
         (split_and!; [done|apply prefix_nil|done|]);
         intros Hacc; specialize (Hacc (trace w ++ [EvDownload url None (Some path)])
                                    "datastore_create" (create_payload id schema primary_key));
         by rewrite Hcreate in Hacc.
    destruct (create_datastore_upload E self schema primary_key w d id url path text res
                Hd Hid Hurl Htr Hfetch Hcreate rows Hcsv) as (t & ok & Hs & Ht & _ & Hok).
    destruct (sent_upserts id (batches rows) t ok Hs) as (Hpre & Hall & _).
    exists (upserts_of t). split_and!.
    + rewrite Ht, !upserts_of_app. simpl. by rewrite app_nil_r.
    + done.
    + intros Hrun. assert (ok = true) as Hok'.
      { destruct ok; [done|]. destruct Hok as (c & Hc). congruence. }
      rewrite (Hall Hok'). by rewrite length_fmap, length_batches.
    + intros Hacc.
      rewrite (create_datastore_opened E self schema primary_key w d id url path text res)
        by done.
      unfold try_finally, try_except. rewrite bind_run. unfold read_rows. rewrite Hcsv. simpl.
      rewrite (upload_loop_send E self d id rows) by done.
      pose proof (send_batches_accepted E id (batches rows)
        (World (trace w ++ [EvDownload url None (Some path);
                            EvPost "datastore_create" (create_payload id schema primary_key)
                              (Success res)])
               (<[path := text]> (files w))) (λ t p, Hacc t "datastore_upsert" p)) as Hsend.
      destruct (send_batches_sent E id (batches rows)
        (World (trace w ++ [EvDownload url None (Some path);
                            EvPost "datastore_create" (create_payload id schema primary_key)
                              (Success res)])
               (<[path := text]> (files w)))) as (t' & ok' & _ & _ & Hf & _).
      destruct (send_batches E id (batches rows) _) as [r1 w1]. simpl in *. subst r1.
      unfold unlink. by rewrite Hf, lookup_insert_eq.
  - intros b. split; reflexivity.
Qed.

Lemma create_datastore_batches_witness :
  ∃ issued,
    upserts_of (trace (create_datastore accepting example_resource (VList []) VNone
                         empty_world).2) = [] ++ issued ∧
    issued `prefix_of` (upsert_payload (VStr "de6549d8") <$> batches example_rows).
Proof.
  destruct (create_datastore_batches accepting example_resource (VList []) VNone
              empty_world example_record (VStr "de6549d8") (VStr "http://resource1.csv")
              "/tmp/resource1.csv" "a" example_rows) as (_ & _ & _ & (issued & H1 & H2 & _) & _);
    try reflexivity.
  exists issued. split; [exact H1 | exact H2].
Defined.

(** ** Every invocation of [create_datastore]: either no upsert is issued,
    or the upload is reached *)

Lemma create_datastore_cases (E : env) (self : Resource) (schema primary_key : value)
    (w : world) :
  (∃ t e, trace (create_datastore E self schema primary_key w).2 = trace w ++ t ∧
          (create_datastore E self schema primary_key w).1 = inl e ∧
          upserts_of t = []) ∨
  (∃ d id url path text res rows,
     data self = VDict d ∧ d !! "id" = Some id ∧ d !! "url" = Some url ∧
     truthy url = true ∧ fetch E (trace w) url None = Some (path, text) ∧
     hdxsite E (trace w ++ [EvDownload url None (Some path)]) "datastore_create"
       (create_payload id schema primary_key) = Success res ∧
     csv_DictReader E text = inr rows).
Proof.
  destruct (data self) as [| | | | |d] eqn:Hd;
    try (left; exists [], (AttributeError "get"); unfold create_datastore;
         rewrite bind_run, download_not_dict by (intros d'; congruence);
         simpl; by rewrite app_nil_r).
  destruct (d !! "url") as [url|] eqn:Hurl; [destruct (truthy url) eqn:Htr|].
  2,3: left; exists [], (HDXError "No URL to download!" None); unfold create_datastore;
       rewrite bind_run, (download_run E self None w d Hd), Hurl; simpl;
       rewrite ?Htr; simpl; by rewrite app_nil_r.
  destruct (fetch E (trace w) url None) as [[path text]|] eqn:Hfetch.
  2: { left. exists [EvDownload url None None], DownloadError. unfold create_datastore.
       rewrite bind_run, (download_run E self None w d Hd), Hurl. simpl.
       by rewrite Htr, Hfetch. }
  destruct (d !! "id") as [id|] eqn:Hid.
  2: { left. exists [EvDownload url None (Some path)], (KeyError "id").
       unfold create_datastore.
       rewrite bind_run, (download_run E self None w d Hd), Hurl. simpl.
       rewrite Htr, Hfetch, Hd, bind_run. unfold getitem. by rewrite Hid. }
  destruct (hdxsite E (trace w ++ [EvDownload url None (Some path)]) "datastore_create"
              (create_payload id schema primary_key)) as [res| |msg] eqn:Hcreate.
  2,3: left; eexists [EvDownload url None (Some path); EvPost "datastore_create" _ _], _;
       unfold create_datastore;
       rewrite bind_run, (download_run E self None w d Hd), Hurl; simpl;
       rewrite Htr, Hfetch, Hd, bind_run, (getitem_dict d "id" id) by done;
       rewrite bind_run, (write_run E _ "datastore_create") by done; simpl;
       rewrite Hcreate; simpl; rewrite <- app_assoc; done.
  destruct (csv_DictReader E text) as [e|rows] eqn:Hcsv.
  - left. exists [EvDownload url None (Some path);
                  EvPost "datastore_create" (create_payload id schema primary_key) (Success res);
                  EvUnlink path], (HDXError (upload_failed url) (Some e)).
    by rewrite (create_datastore_unreadable E self schema primary_key w d id url path text res
                  Hd Hid Hurl Htr Hfetch Hcreate e Hcsv).
  - right. by exists d, id, url, path, text, res, rows.
Qed.

(** C2: in every invocation of [create_datastore], if a [datastore_upsert]
    call is not answered with success, then nothing follows it in the trace
    but the removal of the temporary file (no further batch, no retry), and
    the caller gets the single [HDXError] "Upload to datastore of <url>
    failed!" raised from the cause, with nothing said about the batches that
    went through. *)
Theorem create_datastore_aborts (E : env) (self : Resource) (schema primary_key : value)
    (w : world) (t1 t2 : list event) (p : gmap string value) (r : reply) :
  let run := create_datastore E self schema primary_key w in
  trace run.2 = trace w ++ t1 ++ EvPost "datastore_upsert" p r :: t2 →
  is_success r = false →
  ∃ d url cause path,
    data self = VDict d ∧ d !! "url" = Some url ∧
    run.1 = inl (HDXError (upload_failed url) (Some cause)) ∧
    t2 = [EvUnlink path].
Proof.
  intros run Htrace Hfail. subst run.
  destruct (create_datastore_cases E self schema primary_key w)
    as [(t & e & Ht & _ & Hnone)|(d & id & url & path & text & res & rows & Hd & Hid & Hurl
                                   & Htr & Hfetch & Hcreate & Hcsv)].
  - rewrite Ht in Htrace. apply app_inv_head in Htrace. subst t.
    rewrite upserts_of_app in Hnone. simpl in Hnone.
    by apply app_eq_nil in Hnone as [_ ?].
  - destruct (create_datastore_upload E self schema primary_key w d id url path text res
                Hd Hid Hurl Htr Hfetch Hcreate rows Hcsv) as (t & ok & Hs & Ht & _ & Hok).
    rewrite Ht in Htrace. apply app_inv_head in Htrace.
    destruct t1 as [|e1 [|e2 t1]]; [done|simplify_eq/=|].
    injection Htrace as _ _ Htrace.
    destruct t2 as [|x t2 _] using rev_ind.
    { apply app_inj_tail in Htrace as [_ ?]. done. }
    rewrite app_comm_cons, app_assoc in Htrace.
    apply app_inj_tail in Htrace as [Ht' <-].
    destruct (sent_failure_last id (batches rows) t ok t1 t2 _ p r Hs Ht' Hfail) as [-> ->].
    destruct Hok as (c & Hc). by exists d, url, c, path.
Qed.

Lemma create_datastore_aborts_witness :
  ∃ d url cause path,
    data example_resource = VDict d ∧ d !! "url" = Some url ∧
    (create_datastore refusing_upserts example_resource (VList []) VNone empty_world).1
      = inl (HDXError (upload_failed url) (Some cause)) ∧
    [EvUnlink "/tmp/resource1.csv"] = [EvUnlink path].
Proof.
  apply (create_datastore_aborts refusing_upserts example_resource (VList []) VNone
           empty_world
           [EvDownload (VStr "http://resource1.csv") None (Some "/tmp/resource1.csv");
            EvPost "datastore_create"
              (create_payload (VStr "de6549d8") (VList []) VNone) (Success (VDict ∅))]
           [EvUnlink "/tmp/resource1.csv"]
           (upsert_payload (VStr "de6549d8") example_rows) (Failure "Validation Error")).
  - vm_compute. reflexivity.
  - reflexivity.
Defined.

(** C3: the temporary file stays behind when [create_datastore] fails
    between the download and the [try] block.  With a site that refuses
    [datastore_create], and with a record that has a URL and no [id], the
    file was downloaded, the operation raises, no [unlink] is in the trace
    and the file is still there. *)
Theorem create_datastore_leaves_file :
  let refused := create_datastore refusing_create example_resource (VList []) VNone empty_world in
  let unsaved := create_datastore accepting unsaved_resource (VList []) VNone empty_world in
  (refused.1 = inl (HDXError "Failed when trying to write"
                      (Some (RemoteFailure "Validation Error"))) ∧
   trace refused.2
   = [EvDownload (VStr "http://resource1.csv") None (Some "/tmp/resource1.csv");
      EvPost "datastore_create" (create_payload (VStr "de6549d8") (VList []) VNone)
        (Failure "Validation Error")] ∧
   files refused.2 !! "/tmp/resource1.csv" = Some "a") ∧
  (unsaved.1 = inl (KeyError "id") ∧
   trace unsaved.2
   = [EvDownload (VStr "http://resource1.csv") None (Some "/tmp/resource1.csv")] ∧
   files unsaved.2 !! "/tmp/resource1.csv" = Some "a").
Proof. vm_compute. split_and!; reflexivity. Qed.

(** The cleanup does run whenever the upload itself is attempted. *)
Lemma create_datastore_cleans_after_upload (E : env) (self : Resource)
    (schema primary_key : value) (w : world) (d : gmap string value) (id url : value)
    (path text : string) (res : value) :
  data self = VDict d → d !! "id" = Some id → d !! "url" = Some url → truthy url = true →
  fetch E (trace w) url None = Some (path, text) →
  hdxsite E (trace w ++ [EvDownload url None (Some path)]) "datastore_create"
    (create_payload id schema primary_key) = Success res →
  files (create_datastore E self schema primary_key w).2 !! path = None.
Proof.
  intros Hd Hid Hurl Htr Hfetch Hcreate.
  destruct (csv_DictReader E text) as [e|rows] eqn:Hcsv.
  - rewrite (create_datastore_unreadable E self schema primary_key w d id url path text res
               Hd Hid Hurl Htr Hfetch Hcreate e Hcsv). simpl. apply lookup_delete_eq.
  - destruct (create_datastore_upload E self schema primary_key w d id url path text res
                Hd Hid Hurl Htr Hfetch Hcreate rows Hcsv) as (t & ok & _ & _ & -> & _).
    apply lookup_delete_eq.
Qed.

(** ** Reading *)

Lemma read_run (E : env) (object_type : string) (v : value) (fieldname : string)
    (action : option string) (kwargs : gmap string value) (w : world) :
  let a := default "resource_show" action in
  let p := <[fieldname := v]> kwargs in
  _read_from_hdx E object_type v fieldname action kwargs w
  = (read_outcome (hdxsite E (trace w) a p),
     World (trace w ++ [EvPost a p (hdxsite E (trace w) a p)]) (files w)).
Proof.
  intros a p. unfold _read_from_hdx. rewrite bind_run.
  assert ((match action with Some a0 => ret a0 | None => action_of "show" end) w
          = (inr a, w)) as -> by (subst a; by destruct action).
  rewrite bind_run. unfold call_action. fold p.
  by destruct (hdxsite E (trace w) a p).
Qed.

(** C5: [read_from_hdx] issues exactly one call, of the [resource_show]
    action with the identifier; on success it returns a [Resource] whose
    data is the remote result, on an ordinary not-found it returns [None]
    without raising, and it raises only when the call itself failed. *)
Theorem read_from_hdx_outcome (E : env) (cfg : Configuration) (identifier : value) (w : world) :
  let r := hdxsite E (trace w) "resource_show" {["id" := identifier]} in
  let run := read_from_hdx E cfg identifier w in
  run.2 = World (trace w ++ [EvPost "resource_show" {["id" := identifier]} r]) (files w) ∧
  match r with
  | Success result => run.1 = inr (Some (mkResource cfg result))
  | NotFound => run.1 = inr None
  | Failure msg =>
      run.1 = inl (HDXError "Failed when trying to read" (Some (RemoteFailure msg)))
  end.
Proof.
  intros r run. subst run. unfold read_from_hdx, _load_from_hdx.
  rewrite !bind_run, read_run. simpl.
  change (<["id" := identifier]> ∅) with ({["id" := identifier]} : gmap string value).
  fold r. by destruct r.
Qed.

(** C6: for a record whose [id] is absent or empty, [update_in_hdx] and
    [delete_from_hdx] raise a local [HDXError] (no remote cause) and leave
    the world as it was: no remote call was attempted. *)
Theorem update_delete_need_identifier (E : env) (self : Resource) (w : world)
    (d : gmap string value) :
  data self = VDict d →
  (d !! "id" = None ∨ ∃ v, d !! "id" = Some v ∧ truthy v = false) →
  ∃ msg,
    update_in_hdx E self w = (inl (HDXError msg None), w) ∧
    delete_from_hdx E self w = (inl (HDXError msg None), w).
Proof.
  intros Hd Hid. exists ("No identifier in " +:+ "resource").
  unfold update_in_hdx, delete_from_hdx, _update_in_hdx, _delete_from_hdx.
  rewrite !bind_run. unfold _check_identifier. rewrite Hd.
  destruct Hid as [->|(v & -> & ->)]; done.
Qed.

Lemma update_delete_need_identifier_witness :
  ∃ msg,
    update_in_hdx accepting unsaved_resource empty_world
      = (inl (HDXError msg None), empty_world) ∧
    delete_from_hdx accepting unsaved_resource empty_world
      = (inl (HDXError msg None), empty_world).
Proof.
  apply (update_delete_need_identifier accepting unsaved_resource empty_world
           {["url" := VStr "http://resource1.csv"]}).
  - reflexivity.
  - left. reflexivity.
Defined.

(** C8: for a record whose [url] is absent or empty, [download] raises the
    local [HDXError] "No URL to download!" and the world is unchanged (no
    download was attempted); for a record with a non-empty [url] it
    attempts the download of that URL and, when the file arrives, returns
    the pair of the URL and the path of the downloaded file. *)
Theorem download_needs_url (E : env) (self : Resource) (path : option string) (w : world)
    (d : gmap string value) :
  data self = VDict d →
  let run := download E self path w in
  ((d !! "url" = None ∨ ∃ v, d !! "url" = Some v ∧ truthy v = false) →
   run = (inl (HDXError "No URL to download!" None), w)) ∧
  (∀ url, d !! "url" = Some url → truthy url = true →
     match fetch E (trace w) url path with
     | Some (p, text) =>
         run.1 = inr (url, p) ∧
         trace run.2 = trace w ++ [EvDownload url path (Some p)] ∧
         files run.2 !! p = Some text
     | None =>
         run.1 = inl DownloadError ∧
         trace run.2 = trace w ++ [EvDownload url path None]
     end).
Proof.
  intros Hd run. subst run. rewrite (download_run E self path w d Hd). split.
  - intros [->|(v & -> & Hv)]; simpl; [done|]. by rewrite Hv.
  - intros url -> Htr. simpl. rewrite Htr.
    destruct (fetch E (trace w) url path) as [[p text]|]; simpl; [|done].
    split_and!; [done|done|apply lookup_insert_eq].
Qed.

Lemma download_needs_url_witness :
  (download accepting unsaved_resource None empty_world).1
  = inr (VStr "http://resource1.csv", "/tmp/resource1.csv") ∧
  download accepting (mkResource "test" (VDict {["url" := VStr ""]})) None empty_world
  = (inl (HDXError "No URL to download!" None), empty_world).
Proof.
  split.
  - exact (proj1 (proj2 (download_needs_url accepting unsaved_resource None empty_world
                           {["url" := VStr "http://resource1.csv"]} eq_refl)
                    (VStr "http://resource1.csv") eq_refl eq_refl)).
  - apply (proj1 (download_needs_url accepting (mkResource "test" (VDict {["url" := VStr ""]}))
                    None empty_world {["url" := VStr ""]} eq_refl)).
    right. exists (VStr ""). split; reflexivity.
Defined.

(** ** Updating the datastore *)

(** C9: each of [update_datastore], [update_datastore_from_yaml_schema],
    [update_datastore_for_topline] and [update_datastore_from_json_schema]
    is [delete_datastore] followed, unless that raised, by the corresponding
    create operation run in the world that the delete left. *)
Theorem update_datastore_deletes_then_creates (E : env) (self : Resource)
    (schema primary_key : value) (path : string) (w : world) :
  update_datastore E self schema primary_key w
  = delete_then_create (delete_datastore E self)
      (create_datastore E self schema primary_key) w ∧
  update_datastore_from_yaml_schema E self path w
  = delete_then_create (delete_datastore E self)
      (create_datastore_from_yaml_schema E self path) w ∧
  update_datastore_for_topline E self w
  = delete_then_create (delete_datastore E self)
      (create_datastore_for_topline E self) w ∧
  update_datastore_from_json_schema E self path w
  = delete_then_create (delete_datastore E self)
      (create_datastore_from_json_schema E self path) w.
Proof.
  unfold update_datastore, update_datastore_from_yaml_schema, update_datastore_for_topline,
    update_datastore_from_json_schema, delete_then_create.
  rewrite !bind_run.
  destruct (delete_datastore E self w) as [[e|[]] w']; done.
Qed.

(** ** Computations that leave the world alone *)

Create HintDb pure.

Lemma pure_ret {A} (a : A) : pure (ret a).
Proof. done. Qed.

Lemma pure_mret {A} (a : A) : pure (mret a).
Proof. done. Qed.

Lemma pure_raise {A} (e : exn) : pure (raise e : M A).
Proof. done. Qed.

Lemma pure_bind {A B} (m : M A) (k : A → M B) :
  pure m → (∀ a, pure (k a)) → pure (m ≫= k).
Proof.
  intros Hm Hk w. rewrite bind_run. specialize (Hm w).
  destruct (m w) as [[e|a] w']; simpl in *; subst; [done|apply Hk].
Qed.

Lemma pure_getitem (d : value) (k : string) : pure (getitem d k).
Proof. intros w. destruct d as [| | | | |m]; try done. simpl. by destruct (m !! k). Qed.

Lemma pure_get (d : value) (k : string) : pure (get d k).
Proof. intros w. by destruct d. Qed.

Lemma pure_iterate (v : value) : pure (iterate v).
Proof. intros w. by destruct v. Qed.

Lemma pure_action_of (name : string) : pure (action_of name).
Proof. intros w. unfold action_of. by destruct (actions !! name). Qed.

Lemma pure_loaded (r : exn + value) : pure (loaded r).
Proof. intros w. by destruct r. Qed.

Lemma pure_if {A} (b : bool) (m1 m2 : M A) :
  pure m1 → pure m2 → pure (if b then m1 else m2).
Proof. by destruct b. Qed.

#[global] Hint Resolve pure_ret pure_mret pure_raise pure_getitem pure_get pure_iterate
  pure_action_of pure_loaded pure_if : pure.
#[global] Hint Extern 2 (pure (_ ≫= _)) => apply pure_bind; [|intros ?] : pure.

(** ** Searching *)

Lemma pure_collect (cfg : Configuration) (result : value) : pure (collect cfg result).
Proof. unfold collect. auto 10 with pure. Qed.

Lemma search_run (E : env) (cfg : Configuration) (query : value) (kwargs : gmap string value)
    (w : world) :
  let r := hdxsite E (trace w) "resource_show" {["query" := query]} in
  let w' := World (trace w ++ [EvPost "resource_show" {["query" := query]} r]) (files w) in
  search_in_hdx E cfg query kwargs w
  = match read_outcome r with
    | inl e => (inl e, w')
    | inr (_, result) => collect cfg result w'
    end.
Proof.
  intros r w'. unfold search_in_hdx. rewrite bind_run, read_run. simpl.
  change (<["query" := query]> ∅) with ({["query" := query]} : gmap string value).
  fold r. fold w'. by destruct (read_outcome r) as [e|[s result]].
Qed.

Lemma collect_all (cfg : Configuration) (d : gmap string value) (c : value) (l : list value)
    (w : world) :
  d !! "count" = Some c → truthy c = true → d !! "results" = Some (VList l) →
  collect cfg (VDict d) w = (inr (Resource_init cfg <$> l), w).
Proof.
  intros Hc Htr Hres. unfold collect.
  assert (truthy (VDict d) = true) as ->.
  { simpl. destruct (map_to_list d) eqn:Hl; [|done].
    apply map_to_list_empty_iff in Hl. subst d. by rewrite lookup_empty in Hc. }
  rewrite bind_run. simpl. rewrite Hc. simpl. rewrite Htr.
  rewrite bind_run, (getitem_dict d "results" (VList l)) by done. done.
Qed.

Lemma collect_none (cfg : Configuration) (result : value) (w : world) :
  truthy result = false ∨
  (∃ d, result = VDict d ∧
        (d !! "count" = None ∨ ∃ c, d !! "count" = Some c ∧ truthy c = false)) →
  collect cfg result w = (inr [], w).
Proof.
  unfold collect. intros [->|(d & -> & Hc)]; [done|].
  destruct (truthy (VDict d)); [|done].
  rewrite bind_run. simpl.
  destruct Hc as [->|(c & -> & Hc)]; simpl; [done|]. by rewrite Hc.
Qed.

(** C10: [search_in_hdx] issues one call; it returns the empty list when
    the result is absent or falsy, or when its [count] is missing or falsy
    (zero), whatever [results] holds; when [count] is truthy it returns one
    [Resource] per element of [results], in the order of the answer. *)
Theorem search_in_hdx_result (E : env) (cfg : Configuration) (query : value)
    (kwargs : gmap string value) (w : world) :
  ∃ a p,
    let r := hdxsite E (trace w) a p in
    let run := search_in_hdx E cfg query kwargs w in
    run.2 = World (trace w ++ [EvPost a p r]) (files w) ∧
    match r with
    | Success result =>
        (truthy result = false → run.1 = inr []) ∧
        (∀ d, result = VDict d →
           (d !! "count" = None ∨ ∃ c, d !! "count" = Some c ∧ truthy c = false) →
           run.1 = inr []) ∧
        (∀ d c l, result = VDict d →
           d !! "count" = Some c → truthy c = true →
           d !! "results" = Some (VList l) →
           run.1 = inr (Resource_init cfg <$> l))
    | NotFound => run.1 = inr []
    | Failure msg => ∃ e, run.1 = inl e
    end.
Proof.
  exists "resource_show", {["query" := query]}. intros r run. subst run.
  rewrite search_run. fold r. destruct r as [result| |msg]; simpl; [|done|eauto].
  split; [apply pure_collect|]. split_and!.
  - intros Hf. by rewrite collect_none by eauto.
  - intros d -> Hc. by rewrite collect_none by eauto.
  - intros d c l -> Hc Htr Hres. by rewrite (collect_all cfg d c l).
Qed.

Lemma search_in_hdx_result_witness :
  (search_in_hdx oversized "test" (VStr "ACLED") ∅ empty_world).1
  = inr [Resource_init "test" row1; Resource_init "test" row2].
Proof.
  destruct (search_in_hdx_result oversized "test" (VStr "ACLED") ∅ empty_world)
    as (a & p & _ & _ & _ & H).
  apply (H (<["count" := VInt 10]> {["results" := VList [row1; row2]]}) (VInt 10)
           [row1; row2]); reflexivity.
Defined.

(** C4, as amended: [search_in_hdx] issues exactly one call per invocation,
    follows no cursor and checks no page size: when the answer has a truthy
    [count] it returns one [Resource] per element of [results], however
    many there are and whatever was asked for. *)
Theorem search_in_hdx_single_call (E : env) (cfg : Configuration) (query : value)
    (kwargs : gmap string value) (w : world) :
  ∃ a p,
    let r := hdxsite E (trace w) a p in
    let run := search_in_hdx E cfg query kwargs w in
    trace run.2 = trace w ++ [EvPost a p r] ∧
    (∀ d c l, r = Success (VDict d) →
       d !! "count" = Some c → truthy c = true →
       d !! "results" = Some (VList l) →
       run.1 = inr (Resource_init cfg <$> l)).
Proof.
  exists "resource_show", {["query" := query]}. intros r run. subst run.
  rewrite search_run. fold r. split.
  - destruct (read_outcome r) as [e|[s result]]; [done|]. by rewrite pure_collect.
  - intros d c l -> Hc Htr Hres. simpl. by rewrite (collect_all cfg d c l).
Qed.

(** C4, counterexample: asked for a [limit] of 1, a site that answers with
    two rows and a total count of 10 makes [search_in_hdx] return the two
    rows after a single call: no error, and no further page. *)
Lemma search_in_hdx_accepts_oversized :
  ¬ rejects_oversized_pages oversized ∧
  let run := search_in_hdx oversized "test" (VStr "ACLED") {["limit" := VInt 1]} empty_world in
  run.1 = inr [Resource_init "test" row1; Resource_init "test" row2] ∧
  length (trace run.2) = 1.
Proof.
  split; [|by vm_compute].
  intros H.
  destruct (H "test" (VStr "ACLED") {["limit" := VInt 1]} empty_world 1%Z
              "resource_show" {["query" := VStr "ACLED"]}
              (<["count" := VInt 10]> {["results" := VList [row1; row2]]}) [row1; row2])
    as [e He].
  - reflexivity.
  - rewrite search_run. simpl. apply list_elem_of_singleton. reflexivity.
  - reflexivity.
  - simpl. lia.
  - rewrite search_run in He. vm_compute in He. discriminate.
Qed.

Lemma search_in_hdx_single_call_witness :
  (search_in_hdx oversized "test" (VStr "ACLED") {["limit" := VInt 1]} empty_world).1
  = inr [Resource_init "test" row1; Resource_init "test" row2].
Proof.
  destruct (search_in_hdx_single_call oversized "test" (VStr "ACLED") {["limit" := VInt 1]}
              empty_world) as (a & p & _ & H).
  apply (H (<["count" := VInt 10]> {["results" := VList [row1; row2]]}) (VInt 10)
           [row1; row2]); reflexivity.
Defined.

(** ** Failures are surfaced at once *)

Lemma fatal_is_call (ev : event) : fatal ev = true → is_call ev = true.
Proof. by destruct ev as [a p [| |]|u p [|]|]. Qed.

Lemma prompt_surfaces {A} (m : M A) : prompt m → surfaces fatal m.
Proof.
  intros Hm w t1 ev t2 Htrace Hbad.
  destruct (Hm w) as (t & Ht & [Hcalm|(Hraise & t0 & ev0 & t3 & -> & Hcalm & Hsilent)]);
    rewrite Ht in Htrace; apply app_inv_head in Htrace.
  - subst t. apply Forall_app in Hcalm as [_ Hcalm]. inversion Hcalm; congruence.
  - split; [done|].
    symmetry in Htrace. apply app_eq_app in Htrace as [l [[-> Hl]|[-> Hl]]].
    + destruct l as [|x l]; simplify_eq/=; [done|].
      apply Forall_app in Hsilent as [_ Hs]. inversion Hs as [|? ? Hev _]; subst.
      apply fatal_is_call in Hbad. congruence.
    + destruct l as [|x l]; simplify_eq/=; [done|].
      apply Forall_app in Hcalm as [_ Hc]. inversion Hc; congruence.
Qed.

Lemma prompt_pure {A} (m : M A) : pure m → prompt m.
Proof. intros Hm w. exists []. rewrite Hm, app_nil_r. auto. Qed.

Lemma prompt_bind {A B} (m : M A) (k : A → M B) :
  prompt m → (∀ a, prompt (k a)) → prompt (m ≫= k).
Proof.
  intros Hm Hk w. rewrite bind_run.
  destruct (Hm w) as (t & Ht & Hcase).
  destruct (m w) as [[e|a] w1]; simpl in *.
  - exists t. split; [done|].
    destruct Hcase as [?|(_ & ?)]; [by left|right; eauto].
  - destruct Hcase as [Hcalm|((e & ?) & _)]; [|done].
    destruct (Hk a w1) as (t' & Ht' & Hcase').
    exists (t ++ t'). rewrite Ht', Ht, <- app_assoc. split; [done|].
    destruct Hcase' as [Hcalm'|(Hraise & t0 & ev & t2 & -> & Hc0 & Hs2)].
    + left. by apply Forall_app.
    + right. split; [done|]. exists (t ++ t0), ev, t2.
      rewrite <- app_assoc. split_and!; [done| |done]. by apply Forall_app.
Qed.

Lemma prompt_bind_ret {A B} (a : A) (k : A → M B) : prompt (k a) → prompt (ret a ≫= k).
Proof. intros Hk w. apply Hk. Qed.

Lemma prompt_if {A} (b : bool) (m1 m2 : M A) :
  prompt m1 → prompt m2 → prompt (if b then m1 else m2).
Proof. by destruct b. Qed.

Lemma prompt_write (E : env) (name : string) (p : gmap string value) (f : string) :
  (∀ a, actions !! name = Some a → read_style a = false) →
  prompt (_write_to_hdx E name p f).
Proof.
  intros Ha w. destruct (actions !! name) as [a|] eqn:Hname.
  - rewrite (write_run E name a) by done. simpl.
    exists [EvPost a p (hdxsite E (trace w) a p)]. split; [done|].
    destruct (hdxsite E (trace w) a p) as [res| |msg]; simpl.
    + left. by repeat constructor.
    + right. split; [eauto|]. by exists [], (EvPost a p NotFound), [].
    + right. split; [eauto|]. by exists [], (EvPost a p (Failure msg)), [].
  - exists []. unfold _write_to_hdx, action_of. rewrite Hname, bind_run. simpl.
    rewrite app_nil_r. auto.
Qed.

Lemma prompt_read (E : env) (object_type : string) (v : value) (fieldname : string)
    (action : option string) (kwargs : gmap string value) :
  read_style (default "resource_show" action) = true →
  prompt (_read_from_hdx E object_type v fieldname action kwargs).
Proof.
  intros Ha w. rewrite read_run. simpl.
  set (a := default "resource_show" action) in *.
  set (p := <[fieldname := v]> kwargs).
  exists [EvPost a p (hdxsite E (trace w) a p)]. split; [done|].
  destruct (hdxsite E (trace w) a p) as [res| |msg]; simpl.
  - left. by repeat constructor.
  - left. repeat constructor. simpl. by rewrite Ha.
  - right. split; [eauto|]. by exists [], (EvPost a p (Failure msg)), [].
Qed.

Lemma prompt_download_file (E : env) (url : value) (path : option string) :
  prompt (download_file E url path).
Proof.
  intros w. unfold download_file.
  destruct (fetch E (trace w) url path) as [[p text]|]; simpl.
  - exists [EvDownload url path (Some p)]. split; [done|]. left. by repeat constructor.
  - exists [EvDownload url path None]. split; [done|]. right. split; [eauto|].
    by exists [], (EvDownload url path None), [].
Qed.

Lemma prompt_try_except_raise {A} (body : M A) (f : exn → exn) :
  prompt body → prompt (try_except body (λ e, raise (f e))).
Proof.
  intros Hb w. unfold try_except. destruct (Hb w) as (t & Ht & Hcase).
  destruct (body w) as [[e|a] w1]; simpl in *; exists t; (split; [done|]).
  - destruct Hcase as [?|(_ & ?)]; [by left|right; eauto].
  - destruct Hcase as [?|((e & ?) & _)]; [by left|done].
Qed.

Lemma prompt_try_finally_unlink {A} (E : env) (body : M A) (path : string) :
  prompt body → prompt (try_finally body (unlink path)).
Proof.
  intros Hb w. unfold try_finally. destruct (Hb w) as (t & Ht & Hcase).
  destruct (body w) as [r w1]. simpl in *. unfold unlink.
  destruct (files w1 !! path) as [text|]; simpl.
  - exists (t ++ [EvUnlink path]). rewrite Ht, <- app_assoc. split; [done|].
    destruct Hcase as [Hcalm|(Hraise & t0 & ev & t2 & -> & Hc0 & Hs2)].
    + left. apply Forall_app. split; [done|]. by repeat constructor.
    + right. split; [done|]. exists t0, ev, (t2 ++ [EvUnlink path]).
      rewrite <- app_assoc. split_and!; [done|done|].
      apply Forall_app. split; [done|]. by repeat constructor.
  - exists t. split; [done|].
    destruct Hcase as [?|(_ & ?)]; [by left|right; eauto].
Qed.

Lemma prompt_upload_loop (E : env) (self : Resource) (rows : list value) (offset : nat) :
  prompt (upload_loop E self rows offset).
Proof.
  funelim (upload_loop E self rows offset).
  - apply prompt_bind; [apply prompt_pure, pure_getitem|].
    intros id. apply prompt_bind; [by apply prompt_write; intros a [= <-]|].
    intros v w.
    match goal with IH : _ → _ → _ → prompt _ |- _ => apply (IH id v w) end.
  - by apply prompt_pure.
Qed.

Section Prompt.
Context (E : env) (self : Resource).

Lemma prompt_download (path : option string) : prompt (download E self path).
Proof.
  unfold download. apply prompt_bind; [apply prompt_pure, pure_get|].
  intros url. apply prompt_if; [by apply prompt_pure|].
  apply prompt_bind; [apply prompt_download_file|]. intros p. by apply prompt_pure.
Qed.

Lemma prompt_create_datastore (schema primary_key : value) :
  prompt (create_datastore E self schema primary_key).
Proof.
  unfold create_datastore.
  apply prompt_bind; [apply prompt_download|]. intros [url path].
  apply prompt_bind; [apply prompt_pure, pure_getitem|]. intros id.
  apply prompt_bind; [by apply prompt_write; intros a [= <-]|]. intros _.
  apply prompt_bind.
  { apply prompt_pure. intros w. unfold attempt, open_. by destruct (files w !! path). }
  intros [e|f]; [by apply prompt_pure|].
  apply (prompt_try_finally_unlink E), prompt_try_except_raise.
  apply prompt_bind.
  { apply prompt_pure. intros w. unfold read_rows. by destruct (csv_DictReader E f). }
  intros rows. apply prompt_upload_loop.
Qed.

Lemma prompt_delete_datastore : prompt (delete_datastore E self).
Proof.
  unfold delete_datastore.
  apply prompt_bind; [apply prompt_pure, pure_getitem|]. intros id.
  change (action_of "datastore_delete") with (ret "datastore_delete" : M string).
  apply prompt_bind_ret.
  apply prompt_bind; [by apply prompt_read|].
  intros [success result]. destruct success; by apply prompt_pure.
Qed.

Lemma prompt_search_in_hdx (cfg : Configuration) (query : value) (kwargs : gmap string value) :
  prompt (search_in_hdx E cfg query kwargs).
Proof.
  unfold search_in_hdx. apply prompt_bind; [by apply prompt_read|].
  intros [success result]. apply prompt_pure, pure_collect.
Qed.

Lemma prompt_read_from_hdx (cfg : Configuration) (identifier : value) :
  prompt (read_from_hdx E cfg identifier).
Proof.
  unfold read_from_hdx, _load_from_hdx.
  apply prompt_bind; [|intros [[] r]; by apply prompt_pure].
  apply prompt_bind; [by apply prompt_read|].
  intros [[] result]; by apply prompt_pure.
Qed.

Lemma pure_check_identifier (object_type id_field_name : string) :
  pure (_check_identifier self object_type id_field_name).
Proof.
  intros w. unfold _check_identifier. destruct (data self) as [| | | | |d]; try done.
  destruct (d !! id_field_name) as [v|]; [|done]. by destruct (truthy v).
Qed.

Lemma prompt_update_in_hdx : prompt (update_in_hdx E self).
Proof.
  unfold update_in_hdx, _update_in_hdx.
  apply prompt_bind; [apply prompt_pure, pure_check_identifier|]. intros [d v].
  apply prompt_bind; [by apply prompt_write; intros a [= <-]|]. intros _.
  by apply prompt_pure.
Qed.

Lemma prompt_delete_from_hdx : prompt (delete_from_hdx E self).
Proof.
  unfold delete_from_hdx, _delete_from_hdx.
  apply prompt_bind; [apply prompt_pure, pure_check_identifier|]. intros [d v].
  apply prompt_bind; [by apply prompt_write; intros a [= <-]|]. intros _.
  by apply prompt_pure.
Qed.

Lemma prompt_create_datastore_from_dict_schema (d : value) :
  prompt (create_datastore_from_dict_schema E self d).
Proof.
  unfold create_datastore_from_dict_schema.
  apply prompt_bind; [apply prompt_pure, pure_getitem|]. intros schema.
  apply prompt_bind; [apply prompt_pure, pure_get|]. intros primary_key.
  apply prompt_create_datastore.
Qed.

Lemma prompt_create_datastore_from_yaml_schema (path : string) :
  prompt (create_datastore_from_yaml_schema E self path).
Proof.
  apply prompt_bind; [apply prompt_pure, pure_loaded|]. intros d.
  apply prompt_create_datastore_from_dict_schema.
Qed.

Lemma prompt_create_datastore_for_topline : prompt (create_datastore_for_topline E self).
Proof.
  apply prompt_bind; [apply prompt_pure, pure_loaded|]. intros d.
  apply prompt_create_datastore_from_dict_schema.
Qed.

Lemma prompt_create_datastore_from_json_schema (path : string) :
  prompt (create_datastore_from_json_schema E self path).
Proof.
  apply prompt_bind; [apply prompt_pure, pure_loaded|]. intros d.
  apply prompt_create_datastore_from_dict_schema.
Qed.
End Prompt.

Lemma delete_datastore_run (E : env) (self : Resource) (w : world) (d : gmap string value)
    (id : value) :
  data self = VDict d → d !! "id" = Some id →
  let p : gmap string value := <["resource_id" := id]> {["force" := VBool true]} in
  let r := hdxsite E (trace w) "datastore_delete" p in
  delete_datastore E self w
  = (match r with
     | Failure msg => inl (HDXError "Failed when trying to read" (Some (RemoteFailure msg)))
     | _ => inr tt
     end,
     World (trace w ++ [EvPost "datastore_delete" p r]) (files w)).
Proof.
  intros Hd Hid p r. unfold delete_datastore.
  rewrite Hd, bind_run, (getitem_dict d "id" id) by done.
  change (action_of "datastore_delete") with (ret "datastore_delete" : M string).
  rewrite bind_run. simpl. rewrite bind_run, read_run. simpl. fold p. fold r.
  by destruct r.
Qed.

(** ** The methods at work on the examples *)

Example create_datastore_accepted :
  create_datastore accepting example_resource (VList []) VNone empty_world
  = (inr tt,
     World [EvDownload (VStr "http://resource1.csv") None (Some "/tmp/resource1.csv");
            EvPost "datastore_create" (create_payload (VStr "de6549d8") (VList []) VNone)
              (Success (VDict ∅));
            EvPost "datastore_upsert" (upsert_payload (VStr "de6549d8") example_rows)
              (Success (VDict ∅));
            EvUnlink "/tmp/resource1.csv"]
           ∅).
Proof. vm_compute. reflexivity. Qed.

Example update_datastore_accepted :
  trace (update_datastore datastore_missing example_resource (VList []) VNone empty_world).2
  = [EvPost "datastore_delete"
       (<["resource_id" := VStr "de6549d8"]> {["force" := VBool true]}) NotFound;
     EvDownload (VStr "http://resource1.csv") None (Some "/tmp/resource1.csv");
     EvPost "datastore_create" (create_payload (VStr "de6549d8") (VList []) VNone)
       (Success (VDict ∅));
     EvPost "datastore_upsert" (upsert_payload (VStr "de6549d8") example_rows)
       (Success (VDict ∅));
     EvUnlink "/tmp/resource1.csv"].
Proof. vm_compute. reflexivity. Qed.

Example read_from_hdx_unknown :
  (read_from_hdx (site (λ _, NotFound)) "test" (VStr "TEST2") empty_world).1 = inr None.
Proof. reflexivity. Qed.

Example search_in_hdx_count_zero :
  (search_in_hdx
     (site (λ _, Success (VDict (<["count" := VInt 0]> {["results" := VList [row1]]}))))
     "test" (VStr "ajyhgr") ∅ empty_world).1 = inr [].
Proof. vm_compute. reflexivity. Qed.

(** ** Every way [create_datastore] can end *)

Lemma create_datastore_before_create (E : env) (self : Resource)
    (schema primary_key : value) (w : world) (d : gmap string value) (url : value)
    (path text : string) :
  data self = VDict d → d !! "url" = Some url → truthy url = true →
  fetch E (trace w) url None = Some (path, text) →
  create_datastore E self schema primary_key w
  = match d !! "id" with
    | None => (inl (KeyError "id"),
               World (trace w ++ [EvDownload url None (Some path)])
                     (<[path := text]> (files w)))
    | Some id =>
        (_write_to_hdx E "datastore_create" (create_payload id schema primary_key) "id";;
         opened ← attempt (open_ path);
         match opened with
         | inl e => raise (HDXError (upload_failed url) (Some e))
         | inr f =>
             try_finally
               (try_except (rows ← read_rows E f; upload_loop E self rows 0)
                  (λ e, raise (HDXError (upload_failed url) (Some e))))
               (unlink path)
         end)
          (World (trace w ++ [EvDownload url None (Some path)]) (<[path := text]> (files w)))
    end.
Proof.
  intros Hd Hurl Htr Hfetch. unfold create_datastore.
  rewrite bind_run, (download_run E self None w d Hd), Hurl. simpl.
  rewrite Htr, Hfetch, Hd, bind_run. unfold getitem.
  by destruct (d !! "id").
Qed.

Lemma create_datastore_created (E : env) (self : Resource) (schema primary_key : value)
    (w : world) :
  created E self schema primary_key w (create_datastore E self schema primary_key w).
Proof.
  destruct (data self) as [| | | | |d] eqn:Hd;
    try (unfold create_datastore;
         rewrite bind_run, download_not_dict by (intros d'; congruence);
         apply created_no_record; intros d'; congruence).
  destruct (d !! "url") as [url|] eqn:Hurl; [destruct (truthy url) eqn:Htr|].
  2,3: unfold create_datastore;
       rewrite bind_run, (download_run E self None w d Hd), Hurl; simpl; rewrite ?Htr;
       apply (created_no_url _ _ _ _ _ d); [done|]; rewrite Hurl; eauto.
  destruct (fetch E (trace w) url None) as [[path text]|] eqn:Hfetch.
  2: { unfold create_datastore.
       rewrite bind_run, (download_run E self None w d Hd), Hurl. simpl.
       rewrite Htr, Hfetch. by apply (created_no_file _ _ _ _ _ d). }
  destruct (d !! "id") as [id|] eqn:Hid.
  2: { rewrite (create_datastore_before_create E self schema primary_key w d url path text)
         by done.
       rewrite Hid. by apply (created_no_id _ _ _ _ _ d). }
  destruct (hdxsite E (trace w ++ [EvDownload url None (Some path)]) "datastore_create"
              (create_payload id schema primary_key)) as [res| |msg] eqn:Hcreate.
  2,3: destruct (create_datastore_refused E self schema primary_key w d id url path text
                   Hd Hid Hurl Htr Hfetch) as (cause & ->); [by rewrite Hcreate|];
       rewrite Hcreate; by eapply (created_refused _ _ _ _ _ d).
  destruct (csv_DictReader E text) as [e|rows] eqn:Hcsv.
  - rewrite (create_datastore_unreadable E self schema primary_key w d id url path text res
               Hd Hid Hurl Htr Hfetch Hcreate e Hcsv).
    by eapply (created_unreadable _ _ _ _ _ d).
  - destruct (create_datastore_upload E self schema primary_key w d id url path text res
                Hd Hid Hurl Htr Hfetch Hcreate rows Hcsv) as (t & ok & Hs & Ht & Hf & Hok).
    destruct (create_datastore E self schema primary_key w) as [o [tr fs]].
    simpl in *. subst tr fs.
    by eapply (created_uploaded _ _ _ _ _ d url path text id res rows t ok).
Qed.

Lemma app_self_nil {A} (l t : list A) : l = l ++ t → t = [].
Proof.
  intros H. rewrite <- (app_nil_r l) in H at 1. by apply app_inv_head in H.
Qed.

Lemma sent_posts (id : value) (bs : list (list value)) (t : list event) (ok : bool) :
  sent id bs t ok →
  Forall (λ ev, ∃ b r, b ∈ bs ∧ ev = EvPost "datastore_upsert" (upsert_payload id b) r) t.
Proof.
  induction 1 as [|b bs res t ok Hs IH|b bs r Hr].
  - constructor.
  - constructor; [exists b, (Success res); set_solver|].
    eapply Forall_impl; [exact IH|]. intros ev (b' & r & Hb & ->). exists b', r. set_solver.
  - repeat constructor. exists b, r. set_solver.
Qed.

Lemma upserts_of_upsert (p : gmap string value) (r : reply) (t : list event) :
  upserts_of (EvPost "datastore_upsert" p r :: t) = p :: upserts_of t.
Proof. reflexivity. Qed.

Lemma records_of_upsert (id : value) (b : list value) :
  records_of (upsert_payload id b) = b.
Proof. reflexivity. Qed.

Lemma sent_rows (id : value) (bs : list (list value)) (t : list event) (ok : bool) :
  sent id bs t ok →
  concat (records_of <$> upserts_of t) `prefix_of` concat bs ∧
  (ok = true → concat (records_of <$> upserts_of t) = concat bs).
Proof.
  induction 1 as [|b bs res t ok Hs [IH1 IH2]|b bs r Hr];
    rewrite ?upserts_of_upsert, ?fmap_cons, ?concat_cons, ?records_of_upsert.
  - done.
  - split.
    + by apply prefix_app.
    + intros Hok. by rewrite IH2.
  - split; [|done]. cbn. rewrite app_nil_r. by apply prefix_app_r.
Qed.

Lemma batches_bounds (rows b : list value) :
  b ∈ batches rows → 0 < length b ≤ chunksize.
Proof.
  intros Hb. apply list_elem_of_lookup in Hb as [k Hk].
  pose proof (lookup_lt_Some _ _ _ Hk) as Hlt.
  destruct (batches_sizes rows k b Hk) as [Hfull Hlast].
  pose proof chunksize_pos.
  destruct (decide (S k = length (batches rows))) as [Heq|Hne].
  - by destruct (Hlast Heq).
  - rewrite Hfull by lia. lia.
Qed.

(** X4: [create_datastore] checks the URL before anything else: for a record
    whose [url] is absent or empty it raises "No URL to download!" and the
    world is unchanged, so no table is created on the site. *)
Theorem create_datastore_needs_url (E : env) (self : Resource) (schema primary_key : value)
    (w : world) (d : gmap string value) :
  data self = VDict d →
  (d !! "url" = None ∨ ∃ v, d !! "url" = Some v ∧ truthy v = false) →
  create_datastore E self schema primary_key w
  = (inl (HDXError "No URL to download!" None), w).
Proof.
  intros Hd Hurl. unfold create_datastore.
  rewrite bind_run, (download_run E self None w d Hd).
  destruct Hurl as [->|(v & -> & Hv)]; simpl; [done|]. by rewrite Hv.
Qed.

Lemma create_datastore_needs_url_witness :
  create_datastore accepting urlless_resource (VList []) VNone empty_world
  = (inl (HDXError "No URL to download!" None), empty_world).
Proof.
  apply (create_datastore_needs_url accepting urlless_resource (VList []) VNone empty_world
           {["id" := VStr "de6549d8"]}).
  - reflexivity.
  - left. reflexivity.
Defined.

(** X5: in every invocation of [create_datastore] the first thing done to
    the outside is the download of the record's URL into a temporary file
    (no path is given); when the download fails nothing else happens. *)
Theorem create_datastore_downloads_first (E : env) (self : Resource)
    (schema primary_key : value) (w : world) (t : list event) :
  let run := create_datastore E self schema primary_key w in
  trace run.2 = trace w ++ t →
  t = [] ∨
  ∃ d url got t',
    data self = VDict d ∧ d !! "url" = Some url ∧
    t = EvDownload url None got :: t' ∧
    (got = None → t' = [] ∧ run.1 = inl DownloadError ∧ files run.2 = files w).
Proof.
  intros run Htrace. subst run.
  pose proof (create_datastore_created E self schema primary_key w) as Hc.
  destruct (create_datastore E self schema primary_key w) as [o w'].
  inversion Hc; subst; simpl in *.
  1,2: left; by eapply app_self_nil.
  all: apply app_inv_head in Htrace; subst t; right.
  - by exists d, url, None, [].
  - by exists d, url, (Some path), [].
  - by eexists d, url, (Some path), _.
  - by eexists d, url, (Some path), _.
  - by eexists d, url, (Some path), _.
Qed.

Lemma create_datastore_downloads_first_witness :
  ∃ d url got t',
    data example_resource = VDict d ∧ d !! "url" = Some url ∧
    [EvDownload (VStr "http://resource1.csv") None None] = EvDownload url None got :: t' ∧
    (got = None →
     t' = [] ∧
     (create_datastore unreachable example_resource (VList []) VNone empty_world).1
       = inl DownloadError ∧
     files (create_datastore unreachable example_resource (VList []) VNone empty_world).2
       = files empty_world).
Proof.
  destruct (create_datastore_downloads_first unreachable example_resource (VList []) VNone
              empty_world [EvDownload (VStr "http://resource1.csv") None None] eq_refl)
    as [H|H].
  - discriminate H.
  - exact H.
Defined.

(** X6: a downloaded file without rows: [create_datastore] creates the
    table, sends no upsert at all, removes the file and returns normally. *)
Theorem create_datastore_empty_file (E : env) (self : Resource)
    (schema primary_key : value) (w : world) (d : gmap string value) (id url : value)
    (path text : string) (res : value) :
  data self = VDict d → d !! "id" = Some id → d !! "url" = Some url → truthy url = true →
  fetch E (trace w) url None = Some (path, text) →
  hdxsite E (trace w ++ [EvDownload url None (Some path)]) "datastore_create"
    (create_payload id schema primary_key) = Success res →
  csv_DictReader E text = inr [] →
  create_datastore E self schema primary_key w
  = (inr tt,
     World (trace w ++ [EvDownload url None (Some path);
                        EvPost "datastore_create" (create_payload id schema primary_key)
                          (Success res);
                        EvUnlink path])
           (delete path (files w))).
Proof.
  intros Hd Hid Hurl Htr Hfetch Hcreate Hcsv.
  destruct (create_datastore_upload E self schema primary_key w d id url path text res
              Hd Hid Hurl Htr Hfetch Hcreate [] Hcsv) as (t & ok & Hs & Ht & Hf & Hok).
  change (batches []) with (@nil (list value)) in Hs. inversion Hs; subst.
  destruct (create_datastore E self schema primary_key w) as [o [tr fs]].
  simpl in *. by subst.
Qed.

Lemma create_datastore_empty_file_witness :
  create_datastore empty_csv example_resource (VList []) VNone empty_world
  = (inr tt,
     World [EvDownload (VStr "http://resource1.csv") None (Some "/tmp/resource1.csv");
            EvPost "datastore_create" (create_payload (VStr "de6549d8") (VList []) VNone)
              (Success (VDict ∅));
            EvUnlink "/tmp/resource1.csv"]
           (delete "/tmp/resource1.csv" ∅)).
Proof.
  apply (create_datastore_empty_file empty_csv example_resource (VList []) VNone empty_world
           example_record (VStr "de6549d8") (VStr "http://resource1.csv")
           "/tmp/resource1.csv" "a" (VDict ∅)); reflexivity.
Defined.

(** X7: when the CSV reader raises on the downloaded file, the table has
    already been created on the site; no row is sent, the file is removed,
    and the reader's exception reaches the caller as the cause of one
    [HDXError], whose message for a URL that is the string [u] is
    "Upload to datastore of u failed!". *)
Theorem create_datastore_unreadable_file (E : env) (self : Resource)
    (schema primary_key : value) (w : world) (d : gmap string value) (id url : value)
    (path text : string) (res : value) (e : exn) :
  data self = VDict d → d !! "id" = Some id → d !! "url" = Some url → truthy url = true →
  fetch E (trace w) url None = Some (path, text) →
  hdxsite E (trace w ++ [EvDownload url None (Some path)]) "datastore_create"
    (create_payload id schema primary_key) = Success res →
  csv_DictReader E text = inl e →
  let run := create_datastore E self schema primary_key w in
  (∃ msg, run.1 = inl (HDXError msg (Some e))) ∧
  (∀ u, url = VStr u →
        run.1 = inl (HDXError ("Upload to datastore of " +:+ u +:+ " failed!") (Some e))) ∧
  trace run.2
  = trace w ++ [EvDownload url None (Some path);
                EvPost "datastore_create" (create_payload id schema primary_key)
                  (Success res);
                EvUnlink path] ∧
  rows_sent w run.2 = [] ∧
  files run.2 !! path = None.
Proof.
  intros Hd Hid Hurl Htr Hfetch Hcreate Hcsv run. subst run.
  rewrite (create_datastore_unreadable E self schema primary_key w d id url path text res
             Hd Hid Hurl Htr Hfetch Hcreate e Hcsv). simpl.
  split; [eauto|]. split; [by intros u ->|]. split; [done|].
  split; [|apply lookup_delete_eq].
  unfold rows_sent. simpl. by rewrite drop_app_length.
Qed.

Lemma create_datastore_unreadable_file_witness :
  (create_datastore unreadable_csv example_resource (VList []) VNone empty_world).1
  = inl (HDXError "Upload to datastore of http://resource1.csv failed!"
           (Some (CSVError "line contains NUL"))).
Proof.
  refine (proj1 (proj2 (create_datastore_unreadable_file unreadable_csv example_resource
                          (VList []) VNone empty_world example_record (VStr "de6549d8")
                          (VStr "http://resource1.csv") "/tmp/resource1.csv" "a" (VDict ∅)
                          (CSVError "line contains NUL") _ _ _ _ _ _ _))
            "http://resource1.csv" eq_refl); reflexivity.
Defined.

(** X8: the rows carried by the upserts of one [create_datastore], put end
    to end, are an initial part of the rows of the file: every row goes out
    at most once and in file order; when the operation returns normally
    they are exactly the rows of the file. *)
Theorem create_datastore_rows_in_order (E : env) (self : Resource)
    (schema primary_key : value) (w : world) (d : gmap string value) (url : value)
    (path text : string) (rows : list value) :
  data self = VDict d → d !! "url" = Some url → truthy url = true →
  fetch E (trace w) url None = Some (path, text) →
  csv_DictReader E text = inr rows →
  let run := create_datastore E self schema primary_key w in
  rows_sent w run.2 `prefix_of` rows ∧
  (run.1 = inr tt → rows_sent w run.2 = rows).
Proof.
  intros Hd Hurl Htr Hfetch Hcsv run. subst run. unfold rows_sent.
  destruct (d !! "id") as [id|] eqn:Hid.
  2: { rewrite (create_datastore_before_create E self schema primary_key w d url path text)
         by done.
       rewrite Hid. simpl. rewrite drop_app_length. split; [apply prefix_nil|done]. }
  destruct (hdxsite E (trace w ++ [EvDownload url None (Some path)]) "datastore_create"
              (create_payload id schema primary_key)) as [res| |msg] eqn:Hcreate.
  2,3: destruct (create_datastore_refused E self schema primary_key w d id url path text
                   Hd Hid Hurl Htr Hfetch) as (cause & ->); [by rewrite Hcreate|];
       simpl; rewrite drop_app_length; split; [apply prefix_nil|done].
  destruct (create_datastore_upload E self schema primary_key w d id url path text res
              Hd Hid Hurl Htr Hfetch Hcreate rows Hcsv) as (t & ok & Hs & Ht & _ & Hok).
  destruct (sent_rows _ _ _ _ Hs) as [Hpre Hall].
  rewrite Ht, drop_app_length, !upserts_of_app. simpl.
  rewrite app_nil_r, batches_concat in *.
  split; [done|]. intros Hrun. apply Hall.
  destruct ok; [done|]. destruct Hok as (c & Hc). congruence.
Qed.

Lemma create_datastore_rows_in_order_witness :
  rows_sent empty_world
    (create_datastore accepting example_resource (VList []) VNone empty_world).2
  = example_rows.
Proof.
  refine (proj2 (create_datastore_rows_in_order accepting example_resource (VList []) VNone
                   empty_world example_record (VStr "http://resource1.csv")
                   "/tmp/resource1.csv" "a" example_rows _ _ _ _ _) _); reflexivity.
Defined.

(** X9: whatever happens, every upsert that [create_datastore] issues
    carries exactly four fields: [resource_id], the identifier of the
    record; [force], set; [method], "upsert"; and [records], between 1 and
    10000 rows: an empty batch is never sent. *)
Theorem create_datastore_upsert_payloads (E : env) (self : Resource)
    (schema primary_key : value) (w : world) (p : gmap string value) (r : reply) :
  let run := create_datastore E self schema primary_key w in
  EvPost "datastore_upsert" p r ∈ drop (length (trace w)) (trace run.2) →
  ∃ d id b,
    data self = VDict d ∧ d !! "id" = Some id ∧
    p = <["resource_id" := id]> (<["force" := VBool true]>
          (<["method" := VStr "upsert"]> {["records" := VList b]})) ∧
    p !! "resource_id" = Some id ∧
    p !! "force" = Some (VBool true) ∧
    p !! "method" = Some (VStr "upsert") ∧
    p !! "records" = Some (VList b) ∧
    0 < length b ≤ 10000.
Proof.
  intros run Hin. subst run.
  pose proof (create_datastore_created E self schema primary_key w) as Hc.
  destruct (create_datastore E self schema primary_key w) as [o w'].
  inversion Hc; subst; simpl in Hin; rewrite ?drop_all, ?drop_app_length in Hin.
  1-6: repeat (apply elem_of_cons in Hin as [Hin|Hin]; [discriminate Hin|]);
       by apply elem_of_nil in Hin.
  simpl in Hin.
  do 2 (apply elem_of_cons in Hin as [Hin|Hin]; [discriminate Hin|]).
  apply elem_of_app in Hin as [Hin|Hin].
  - match goal with H : sent _ _ _ _ |- _ => pose proof (sent_posts _ _ _ _ H) as Hposts end.
    rewrite Forall_forall in Hposts.
    destruct (Hposts _ Hin) as (b & r' & Hb & Heq). injection Heq as -> _.
    exists d, id, b. do 7 (split; [done|]).
    change 10000 with chunksize. by apply batches_bounds in Hb.
  - apply elem_of_cons in Hin as [Hin|Hin]; [discriminate Hin|]. by apply elem_of_nil in Hin.
Qed.

Lemma create_datastore_upsert_payloads_witness :
  ∃ d id b,
    data example_resource = VDict d ∧ d !! "id" = Some id ∧
    upsert_payload (VStr "de6549d8") example_rows
    = <["resource_id" := id]> (<["force" := VBool true]>
        (<["method" := VStr "upsert"]> {["records" := VList b]})) ∧
    upsert_payload (VStr "de6549d8") example_rows !! "resource_id" = Some id ∧
    upsert_payload (VStr "de6549d8") example_rows !! "force" = Some (VBool true) ∧
    upsert_payload (VStr "de6549d8") example_rows !! "method" = Some (VStr "upsert") ∧
    upsert_payload (VStr "de6549d8") example_rows !! "records" = Some (VList b) ∧
    0 < length b ≤ 10000.
Proof.
  apply (create_datastore_upsert_payloads accepting example_resource (VList []) VNone
           empty_world (upsert_payload (VStr "de6549d8") example_rows) (Success (VDict ∅))).
  vm_compute. do 2 apply list_elem_of_further. apply list_elem_of_here.
Defined.

(** X10: [create_datastore] touches no local file other than the one its
    own download writes, which is the file the downloader delivers for the
    record's URL: every other path holds after the invocation what it held
    before, and when the record has no URL to download no path changes. *)
Theorem create_datastore_other_files (E : env) (self : Resource)
    (schema primary_key : value) (w : world) (p : string) :
  (∀ d url text,
     data self = VDict d → d !! "url" = Some url → truthy url = true →
     fetch E (trace w) url None ≠ Some (p, text)) →
  files (create_datastore E self schema primary_key w).2 !! p = files w !! p.
Proof.
  intros Hp.
  pose proof (create_datastore_created E self schema primary_key w) as Hc.
  destruct (create_datastore E self schema primary_key w) as [o w'].
  assert (∀ d url path text,
            data self = VDict d → d !! "url" = Some url → truthy url = true →
            fetch E (trace w) url None = Some (path, text) → p ≠ path)
    as Hne by (intros d url path text Hd Hurl Htr Hf ->; by eapply Hp).
  inversion Hc; subst; simpl; try done.
  1,2: rewrite lookup_insert_ne; [done|]; symmetry; eauto.
  1,2: rewrite lookup_delete_ne; [done|]; symmetry; eauto.
Qed.

Lemma create_datastore_other_files_witness :
  files (create_datastore accepting example_resource (VList []) VNone
           (World [] {["notes.txt" := "keep"]})).2 !! "notes.txt"
  = files (World [] {["notes.txt" := "keep"]}) !! "notes.txt".
Proof.
  apply (create_datastore_other_files accepting example_resource (VList []) VNone
           (World [] {["notes.txt" := "keep"]}) "notes.txt").
  intros d url text _ _ _. simpl. discriminate.
Defined.

(** ** Deleting and updating the datastore *)

(** X15: [delete_datastore] on a record with an [id] issues exactly one
    call, the [datastore_delete] action with [resource_id] set to the
    identifier and [force] set; it touches no file, returns normally when
    the call is answered with a result or with not-found, and raises only
    when the call failed. *)
Theorem delete_datastore_one_call (E : env) (self : Resource) (w : world)
    (d : gmap string value) (id : value) :
  data self = VDict d → d !! "id" = Some id →
  let r := hdxsite E (trace w) "datastore_delete" (delete_payload id) in
  let run := delete_datastore E self w in
  run.2 = World (trace w ++ [EvPost "datastore_delete" (delete_payload id) r]) (files w) ∧
  delete_payload id !! "resource_id" = Some id ∧
  delete_payload id !! "force" = Some (VBool true) ∧
  match r with
  | Failure msg =>
      run.1 = inl (HDXError "Failed when trying to read" (Some (RemoteFailure msg)))
  | _ => run.1 = inr tt
  end.
Proof.
  intros Hd Hid r run. subst run.
  rewrite (delete_datastore_run E self w d id Hd Hid). simpl. fold (delete_payload id).
  fold r. split_and!; [done|done|done|]. by destruct r.
Qed.

Lemma delete_datastore_one_call_witness :
  (delete_datastore accepting example_resource empty_world).2
  = World [EvPost "datastore_delete" (delete_payload (VStr "de6549d8")) (Success (VDict ∅))] ∅.
Proof.
  exact (proj1 (delete_datastore_one_call accepting example_resource empty_world
                  example_record (VStr "de6549d8") eq_refl eq_refl)).
Defined.

(** X1: on a record without an [id], [delete_datastore] and the four
    [update_datastore] methods raise [KeyError] for ['id'] and leave the
    world unchanged: nothing is sent, downloaded or loaded. *)
Theorem datastore_methods_need_id (E : env) (self : Resource) (schema primary_key : value)
    (path : string) (w : world) (d : gmap string value) :
  data self = VDict d → d !! "id" = None →
  delete_datastore E self w = (inl (KeyError "id"), w) ∧
  update_datastore E self schema primary_key w = (inl (KeyError "id"), w) ∧
  update_datastore_from_yaml_schema E self path w = (inl (KeyError "id"), w) ∧
  update_datastore_for_topline E self w = (inl (KeyError "id"), w) ∧
  update_datastore_from_json_schema E self path w = (inl (KeyError "id"), w).
Proof.
  intros Hd Hid.
  assert (delete_datastore E self w = (inl (KeyError "id"), w)) as Hdel.
  { unfold delete_datastore. rewrite Hd, bind_run. unfold getitem. by rewrite Hid. }
  unfold update_datastore, update_datastore_from_yaml_schema, update_datastore_for_topline,
    update_datastore_from_json_schema.
  rewrite !bind_run, Hdel. done.
Qed.

Lemma datastore_methods_need_id_witness :
  update_datastore accepting unsaved_resource (VList []) VNone empty_world
  = (inl (KeyError "id"), empty_world).
Proof.
  exact (proj1 (proj2 (datastore_methods_need_id accepting unsaved_resource (VList []) VNone
                         "schema.yml" empty_world {["url" := VStr "http://resource1.csv"]}
                         eq_refl eq_refl))).
Defined.

(** X2: when the [datastore_delete] call of an update fails, the four
    [update_datastore] methods stop there: the error of the delete reaches
    the caller, and nothing is downloaded, loaded or created. *)
Theorem update_datastore_failed_delete (E : env) (self : Resource)
    (schema primary_key : value) (path : string) (w : world) (d : gmap string value)
    (id : value) (msg : string) :
  data self = VDict d → d !! "id" = Some id →
  hdxsite E (trace w) "datastore_delete" (delete_payload id) = Failure msg →
  let stopped : (exn + unit) * world :=
    (inl (HDXError "Failed when trying to read" (Some (RemoteFailure msg))),
     World (trace w ++ [EvPost "datastore_delete" (delete_payload id) (Failure msg)])
           (files w)) in
  update_datastore E self schema primary_key w = stopped ∧
  update_datastore_from_yaml_schema E self path w = stopped ∧
  update_datastore_for_topline E self w = stopped ∧
  update_datastore_from_json_schema E self path w = stopped.
Proof.
  intros Hd Hid Hfail stopped. subst stopped.
  unfold update_datastore, update_datastore_from_yaml_schema, update_datastore_for_topline,
    update_datastore_from_json_schema.
  rewrite !bind_run, (delete_datastore_run E self w d id Hd Hid). simpl.
  fold (delete_payload id). by rewrite Hfail.
Qed.

Lemma update_datastore_failed_delete_witness :
  update_datastore (refusing "datastore_delete" (Failure "Access denied")) example_resource
    (VList []) VNone empty_world
  = (inl (HDXError "Failed when trying to read" (Some (RemoteFailure "Access denied"))),
     World [EvPost "datastore_delete" (delete_payload (VStr "de6549d8"))
              (Failure "Access denied")] ∅).
Proof.
  exact (proj1 (update_datastore_failed_delete
                  (refusing "datastore_delete" (Failure "Access denied")) example_resource
                  (VList []) VNone "schema.yml" empty_world example_record (VStr "de6549d8")
                  "Access denied" eq_refl eq_refl eq_refl)).
Defined.

(** X3: [update_datastore] deletes before it looks at the URL: on a record
    with an [id] and no (or an empty) [url], the datastore is deleted on the
    site and the method then raises "No URL to download!"; nothing is
    created in its place. *)
Theorem update_datastore_without_url (E : env) (self : Resource)
    (schema primary_key : value) (w : world) (d : gmap string value) (id : value) :
  data self = VDict d → d !! "id" = Some id →
  (d !! "url" = None ∨ ∃ v, d !! "url" = Some v ∧ truthy v = false) →
  let r := hdxsite E (trace w) "datastore_delete" (delete_payload id) in
  (∀ msg, r ≠ Failure msg) →
  update_datastore E self schema primary_key w
  = (inl (HDXError "No URL to download!" None),
     World (trace w ++ [EvPost "datastore_delete" (delete_payload id) r]) (files w)).
Proof.
  intros Hd Hid Hurl r Hr. unfold update_datastore.
  rewrite bind_run, (delete_datastore_run E self w d id Hd Hid). simpl.
  fold (delete_payload id). fold r.
  assert (∀ w', create_datastore E self schema primary_key w'
                = (inl (HDXError "No URL to download!" None), w')) as Hcreate.
  { intros w'. unfold create_datastore.
    rewrite bind_run, (download_run E self None w' d Hd).
    destruct Hurl as [->|(v & -> & Hv)]; simpl; [done|]. by rewrite Hv. }
  destruct r as [res| |msg]; [apply Hcreate|apply Hcreate|by destruct (Hr msg)].
Qed.

Lemma update_datastore_without_url_witness :
  update_datastore accepting urlless_resource (VList []) VNone empty_world
  = (inl (HDXError "No URL to download!" None),
     World [EvPost "datastore_delete" (delete_payload (VStr "de6549d8")) (Success (VDict ∅))]
           ∅).
Proof.
  apply (update_datastore_without_url accepting urlless_resource (VList []) VNone empty_world
           {["id" := VStr "de6549d8"]} (VStr "de6549d8")).
  - reflexivity.
  - reflexivity.
  - left. reflexivity.
  - intros msg. discriminate.
Defined.

(** ** The schema given as a dictionary or as a file *)

Lemma create_datastore_from_dict_schema_run (E : env) (self : Resource)
    (d : gmap string value) (w : world) :
  create_datastore_from_dict_schema E self (VDict d) w
  = match d !! "schema" with
    | None => (inl (KeyError "schema"), w)
    | Some schema => create_datastore E self schema (default VNone (d !! "primary_key")) w
    end.
Proof.
  unfold create_datastore_from_dict_schema. rewrite bind_run. unfold getitem.
  by destruct (d !! "schema").
Qed.

(** X11: [create_datastore_from_dict_schema] needs the [schema] key: without
    it the method raises [KeyError] for ['schema'] and the world is
    unchanged; with it the method is [create_datastore] on that schema, with
    the primary key [None] when the dictionary gives none. *)
Theorem create_datastore_from_dict_schema_cases (E : env) (self : Resource)
    (d : gmap string value) (w : world) :
  (d !! "schema" = None →
   create_datastore_from_dict_schema E self (VDict d) w = (inl (KeyError "schema"), w)) ∧
  (∀ schema, d !! "schema" = Some schema →
     (∀ key, d !! "primary_key" = Some key →
        create_datastore_from_dict_schema E self (VDict d) w
        = create_datastore E self schema key w) ∧
     (d !! "primary_key" = None →
        create_datastore_from_dict_schema E self (VDict d) w
        = create_datastore E self schema VNone w)).
Proof.
  rewrite create_datastore_from_dict_schema_run. split.
  - by intros ->.
  - intros schema ->. split; [intros key ->|intros ->]; done.
Qed.

Lemma create_datastore_from_dict_schema_cases_witness :
  create_datastore_from_dict_schema accepting example_resource
    (VDict {["primary_key" := VStr "code"]}) empty_world
  = (inl (KeyError "schema"), empty_world) ∧
  create_datastore_from_dict_schema accepting example_resource
    (VDict {["schema" := VList []]}) empty_world
  = create_datastore accepting example_resource (VList []) VNone empty_world.
Proof.
  split.
  - apply (proj1 (create_datastore_from_dict_schema_cases accepting example_resource
                    {["primary_key" := VStr "code"]} empty_world)).
    reflexivity.
  - destruct (proj2 (create_datastore_from_dict_schema_cases accepting example_resource
                       {["schema" := VList []]} empty_world) (VList [])) as [_ H];
      [reflexivity|].
    apply H. reflexivity.
Defined.

(** X12: the three schema-file variants of [create_datastore] differ only in
    where the dictionary comes from (a YAML file, the built-in topline YAML
    file next to the module, a JSON file): when the file cannot be loaded
    the loader's exception reaches the caller and the world is unchanged;
    otherwise each is [create_datastore_from_dict_schema] on what was
    loaded. *)
Theorem create_datastore_from_files (E : env) (self : Resource) (path : string) (w : world) :
  let topline := script_dir_plus_file E "../hdx_datasource_topline.yml" in
  (∀ e, load_yaml E path = inl e →
        create_datastore_from_yaml_schema E self path w = (inl e, w)) ∧
  (∀ e, load_yaml E topline = inl e →
        create_datastore_for_topline E self w = (inl e, w)) ∧
  (∀ e, load_json E path = inl e →
        create_datastore_from_json_schema E self path w = (inl e, w)) ∧
  (∀ v, load_yaml E path = inr v →
        create_datastore_from_yaml_schema E self path w
        = create_datastore_from_dict_schema E self v w) ∧
  (∀ v, load_yaml E topline = inr v →
        create_datastore_for_topline E self w
        = create_datastore_from_dict_schema E self v w) ∧
  (∀ v, load_json E path = inr v →
        create_datastore_from_json_schema E self path w
        = create_datastore_from_dict_schema E self v w).
Proof.
  intros topline. subst topline.
  unfold create_datastore_from_yaml_schema, create_datastore_for_topline,
    create_datastore_from_json_schema.
  rewrite !bind_run.
  split_and!; intros x Hx; by rewrite Hx.
Qed.

Lemma create_datastore_from_files_witness :
  create_datastore_from_yaml_schema missing_schema_file example_resource "schema.yml"
    empty_world
  = (inl (OSError "schema.yml"), empty_world) ∧
  create_datastore_from_json_schema accepting example_resource "schema.json" empty_world
  = create_datastore_from_dict_schema accepting example_resource
      (VDict {["schema" := VList []]}) empty_world.
Proof.
  pose proof (create_datastore_from_files missing_schema_file example_resource "schema.yml"
                empty_world) as (Hyaml & _).
  pose proof (create_datastore_from_files accepting example_resource "schema.json"
                empty_world) as (_ & _ & _ & _ & _ & Hjson).
  split.
  - apply Hyaml. reflexivity.
  - apply Hjson. reflexivity.
Defined.

(** X13: the [update_datastore] methods that take the schema from a file
    delete the datastore before they load the file: when the delete call
    did not fail and the file cannot be loaded, the datastore has been
    deleted on the site and the loader's exception reaches the caller. *)
Theorem update_datastore_unloadable_schema (E : env) (self : Resource) (path : string)
    (w : world) (d : gmap string value) (id : value) (e : exn) :
  data self = VDict d → d !! "id" = Some id →
  let r := hdxsite E (trace w) "datastore_delete" (delete_payload id) in
  let deleted := World (trace w ++ [EvPost "datastore_delete" (delete_payload id) r])
                       (files w) in
  (∀ msg, r ≠ Failure msg) →
  (load_yaml E path = inl e →
   update_datastore_from_yaml_schema E self path w = (inl e, deleted)) ∧
  (load_yaml E (script_dir_plus_file E "../hdx_datasource_topline.yml") = inl e →
   update_datastore_for_topline E self w = (inl e, deleted)) ∧
  (load_json E path = inl e →
   update_datastore_from_json_schema E self path w = (inl e, deleted)).
Proof.
  intros Hd Hid r deleted Hr. subst deleted.
  unfold update_datastore_from_yaml_schema, update_datastore_for_topline,
    update_datastore_from_json_schema, create_datastore_from_yaml_schema,
    create_datastore_for_topline, create_datastore_from_json_schema.
  rewrite !bind_run, (delete_datastore_run E self w d id Hd Hid). simpl.
  fold (delete_payload id). fold r.
  destruct r as [res| |msg]; [| |by destruct (Hr msg)];
    rewrite !bind_run; (split_and!; intros ->; done).
Qed.

Lemma update_datastore_unloadable_schema_witness :
  update_datastore_from_yaml_schema missing_schema_file example_resource "schema.yml"
    empty_world
  = (inl (OSError "schema.yml"),
     World [EvPost "datastore_delete" (delete_payload (VStr "de6549d8")) (Success (VDict ∅))]
           ∅).
Proof.
  refine (proj1 (update_datastore_unloadable_schema missing_schema_file example_resource
                   "schema.yml" empty_world example_record (VStr "de6549d8")
                   (OSError "schema.yml") eq_refl eq_refl _) eq_refl).
  intros msg. discriminate.
Defined.

(** ** Answers that [search_in_hdx] cannot read *)

(** X14: [search_in_hdx] does not guard the shape of a truthy result: when
    it is not a dictionary the method raises [AttributeError]; when it is a
    dictionary with a truthy [count] and no [results] key it raises
    [KeyError] for ['results']; when [results] is [None], a boolean or a
    number it raises [TypeError].  None of these is an [HDXError]. *)
Theorem search_in_hdx_malformed (E : env) (cfg : Configuration) (query : value)
    (kwargs : gmap string value) (w : world) :
  ∃ a p,
    let r := hdxsite E (trace w) a p in
    let run := search_in_hdx E cfg query kwargs w in
    trace run.2 = trace w ++ [EvPost a p r] ∧
    ∀ result, r = Success result → truthy result = true →
      ((∀ d, result ≠ VDict d) → run.1 = inl (AttributeError "get")) ∧
      (∀ d c, result = VDict d → d !! "count" = Some c → truthy c = true →
         (d !! "results" = None → run.1 = inl (KeyError "results")) ∧
         (∀ v, d !! "results" = Some v →
               (v = VNone ∨ (∃ b, v = VBool b) ∨ (∃ z, v = VInt z)) →
               run.1 = inl (TypeError "not iterable"))).
Proof.
  exists "resource_show", {["query" := query]}. intros r run. subst run.
  rewrite search_run. fold r. split.
  - destruct (read_outcome r) as [e|[s result]]; [done|]. by rewrite pure_collect.
  - intros result -> Htr. simpl. unfold collect. rewrite Htr. split.
    + intros Hnd. rewrite bind_run.
      destruct result as [| | | | |d]; try done. by destruct (Hnd d).
    + intros d c -> Hc Hct. rewrite bind_run. simpl. rewrite Hc. simpl. rewrite Hct.
      rewrite bind_run. unfold getitem. split.
      * by intros ->.
      * intros v -> Hv.
        destruct Hv as [->|[[b ->]|[z ->]]]; done.
Qed.

Lemma search_in_hdx_malformed_witness :
  (search_in_hdx (site (λ _, Success (VDict {["count" := VInt 3]}))) "test" (VStr "ACLED")
     ∅ empty_world).1
  = inl (KeyError "results").
Proof.
  destruct (search_in_hdx_malformed (site (λ _, Success (VDict {["count" := VInt 3]})))
              "test" (VStr "ACLED") ∅ empty_world) as (a & p & _ & H).
  destruct (H (VDict {["count" := VInt 3]}) eq_refl eq_refl) as [_ Hd].
  apply (Hd {["count" := VInt 3]} (VInt 3)); reflexivity.
Defined.

(** ** The cleanup, at work *)

(** X16: once [datastore_create] was accepted, [create_datastore] removes
    the downloaded file as the last thing it does, whether the rows went
    through, an upsert was refused or the file could not be parsed; the
    local files are then what they were before, without that path. *)
Theorem create_datastore_removes_file (E : env) (self : Resource)
    (schema primary_key : value) (w : world) (d : gmap string value) (id url : value)
    (path text : string) (res : value) :
  data self = VDict d → d !! "id" = Some id → d !! "url" = Some url → truthy url = true →
  fetch E (trace w) url None = Some (path, text) →
  hdxsite E (trace w ++ [EvDownload url None (Some path)]) "datastore_create"
    (create_payload id schema primary_key) = Success res →
  let run := create_datastore E self schema primary_key w in
  files run.2 = delete path (files w) ∧
  ∃ t, trace run.2 = trace w ++ t ++ [EvUnlink path].
Proof.
  intros Hd Hid Hurl Htr Hfetch Hcreate run. subst run.
  destruct (csv_DictReader E text) as [e|rows] eqn:Hcsv.
  - rewrite (create_datastore_unreadable E self schema primary_key w d id url path text res
               Hd Hid Hurl Htr Hfetch Hcreate e Hcsv). simpl. split; [done|].
    by exists [EvDownload url None (Some path);
               EvPost "datastore_create" (create_payload id schema primary_key)
                 (Success res)].
  - destruct (create_datastore_upload E self schema primary_key w d id url path text res
                Hd Hid Hurl Htr Hfetch Hcreate rows Hcsv) as (t & ok & _ & Ht & Hf & _).
    split; [done|]. rewrite Ht.
    exists ([EvDownload url None (Some path);
             EvPost "datastore_create" (create_payload id schema primary_key)
               (Success res)] ++ t).
    by rewrite <- !app_assoc.
Qed.

Lemma create_datastore_removes_file_witness :
  files (create_datastore refusing_upserts example_resource (VList []) VNone
           (World [] {["/tmp/resource1.csv" := "old"]})).2
  = delete "/tmp/resource1.csv" {["/tmp/resource1.csv" := "old"]}.
Proof.
  refine (proj1 (create_datastore_removes_file refusing_upserts example_resource (VList [])
                   VNone (World [] {["/tmp/resource1.csv" := "old"]}) example_record
                   (VStr "de6549d8") (VStr "http://resource1.csv")
                   "/tmp/resource1.csv" "a" (VDict ∅) _ _ _ _ _ _)); reflexivity.
Defined.

(** X17: [create_datastore] never upserts into a table it did not create:
    when an invocation issues an upsert, what it did before was to download
    the file and to have [datastore_create] accepted, with the record's
    identifier, [force] set, the schema and the primary key it was given. *)
Theorem create_datastore_creates_before_upserts (E : env) (self : Resource)
    (schema primary_key : value) (w : world) (t : list event) (p : gmap string value)
    (r : reply) :
  let run := create_datastore E self schema primary_key w in
  trace run.2 = trace w ++ t →
  EvPost "datastore_upsert" p r ∈ t →
  ∃ d id url path res t',
    data self = VDict d ∧ d !! "id" = Some id ∧ d !! "url" = Some url ∧
    t = EvDownload url None (Some path)
        :: EvPost "datastore_create" (create_payload id schema primary_key) (Success res)
        :: t' ∧
    create_payload id schema primary_key !! "resource_id" = Some id ∧
    create_payload id schema primary_key !! "force" = Some (VBool true) ∧
    create_payload id schema primary_key !! "fields" = Some schema ∧
    create_payload id schema primary_key !! "primary_key" = Some primary_key.
Proof.
  intros run Htrace Hin. subst run.
  pose proof (create_datastore_created E self schema primary_key w) as Hc.
  destruct (create_datastore E self schema primary_key w) as [o w'].
  inversion Hc; subst; simpl in Htrace.
  1,2: apply app_self_nil in Htrace; subst t; by apply elem_of_nil in Hin.
  all: apply app_inv_head in Htrace; subst t.
  1-4: repeat (apply elem_of_cons in Hin as [Hin|Hin]; [discriminate Hin|]);
       by apply elem_of_nil in Hin.
  eexists d, id, url, path, res, _. by split_and!.
Qed.

Lemma create_datastore_creates_before_upserts_witness :
  ∃ d id url path res t',
    data example_resource = VDict d ∧ d !! "id" = Some id ∧ d !! "url" = Some url ∧
    trace (create_datastore accepting example_resource (VList []) VNone empty_world).2
    = EvDownload url None (Some path)
      :: EvPost "datastore_create" (create_payload id (VList []) VNone) (Success res)
      :: t' ∧
    create_payload id (VList []) VNone !! "resource_id" = Some id ∧
    create_payload id (VList []) VNone !! "force" = Some (VBool true) ∧
    create_payload id (VList []) VNone !! "fields" = Some (VList []) ∧
    create_payload id (VList []) VNone !! "primary_key" = Some VNone.
Proof.
  apply (create_datastore_creates_before_upserts accepting example_resource (VList []) VNone
           empty_world
           (trace (create_datastore accepting example_resource (VList []) VNone
                     empty_world).2)
           (upsert_payload (VStr "de6549d8") example_rows) (Success (VDict ∅))).
  - reflexivity.
  - vm_compute. do 2 apply list_elem_of_further. apply list_elem_of_here.
Defined.

(** ** Normal returns and tolerated answers *)

Lemma returns_bind {A B} (m : M A) (k : A → M B) (w : world) :
  returns (m ≫= k) w → ∃ a, (m w).1 = inr a ∧ returns (k a) (m w).2.
Proof.
  unfold returns. rewrite bind_run. destruct (m w) as [[e|a] w']; simpl.
  - by intros [b ?].
  - eauto.
Qed.

Lemma returns_check_identifier (self : Resource) (object_type id_field_name : string)
    (w : world) :
  returns (_check_identifier self object_type id_field_name) w →
  ∃ d id, data self = VDict d ∧ d !! id_field_name = Some id ∧ truthy id = true.
Proof.
  unfold returns, _check_identifier. intros [a Ha].
  destruct (data self) as [| | | | |d]; try done.
  destruct (d !! id_field_name) as [v|] eqn:Hv; [|done].
  destruct (truthy v) eqn:Htr; [|done]. by exists d, v.
Qed.

Lemma returns_update_in_hdx (E : env) (self : Resource) (w : world) :
  returns (update_in_hdx E self) w → identified self.
Proof.
  intros (a & Ha & _)%returns_bind.
  apply (returns_check_identifier self "resource" "id" w). by exists a.
Qed.

Lemma returns_delete_from_hdx (E : env) (self : Resource) (w : world) :
  returns (delete_from_hdx E self) w → identified self.
Proof.
  intros (a & Ha & _)%returns_bind.
  apply (returns_check_identifier self "resource" "id" w). by exists a.
Qed.

Lemma returns_create_in_hdx (E : env) (required : list string) (self : Resource)
    (w : world) :
  returns (create_in_hdx E required self) w → has_fields required self.
Proof.
  intros (d & Hd & _)%returns_bind. unfold _check_required_fields in Hd.
  destruct (data self) as [| | | | |d'] eqn:Hdata; try done.
  destruct (forallb _ required) eqn:Hall; [|done].
  exists d'. split; [done|].
  rewrite forallb_forall in Hall. apply Forall_forall.
  intros f Hf%list_elem_of_In. specialize (Hall f Hf). by apply bool_decide_eq_true in Hall.
Qed.

Lemma returns_download (E : env) (self : Resource) (target : option string) (w : world) :
  returns (download E self target) w → downloadable E self target w.
Proof.
  intros [a Ha]. destruct (data self) as [| | | | |d] eqn:Hd;
    try (rewrite download_not_dict in Ha by (intros d'; congruence); done).
  rewrite (download_run E self target w d Hd) in Ha. simpl in Ha.
  destruct (d !! "url") as [url|] eqn:Hurl; [|done]. simpl in Ha.
  destruct (truthy url) eqn:Htr; [|done].
  destruct (fetch E (trace w) url target) as [[path text]|] eqn:Hfetch; [|done].
  by exists d, url, path, text.
Qed.

Lemma returns_delete_datastore (E : env) (self : Resource) (w : world) :
  returns (delete_datastore E self) w → has_id self.
Proof.
  intros (id & Hid & _)%returns_bind. unfold getitem in Hid.
  destruct (data self) as [| | | | |d] eqn:Hd; try done.
  destruct (d !! "id") as [v|] eqn:Hv; [|done]. by exists d, v.
Qed.

Lemma returns_create_datastore (E : env) (self : Resource) (schema primary_key : value)
    (w : world) :
  returns (create_datastore E self schema primary_key) w →
  uploadable E self schema primary_key w.
Proof.
  intros [a Ha].
  destruct (create_datastore_cases E self schema primary_key w)
    as [(t & e & _ & He & _)|Hup]; [congruence|done].
Qed.

Lemma returns_create_datastore_from_dict_schema (E : env) (self : Resource) (v : value)
    (w : world) :
  returns (create_datastore_from_dict_schema E self v) w →
  schema_uploadable E self (inr v) w.
Proof.
  intros (schema & Hschema & (key & Hkey & Hc)%returns_bind)%returns_bind.
  destruct v as [| | | | |d]; try done.
  unfold getitem in Hschema. destruct (d !! "schema") as [schema'|] eqn:Hs; [|done].
  simpl in *. injection Hschema as <-. injection Hkey as <-.
  exists d, schema'. split_and!; [done|done|].
  rewrite Hs in Hc. by apply returns_create_datastore.
Qed.

Lemma returns_loaded (E : env) (self : Resource) (file : exn + value) (w : world) :
  returns (d ← loaded file; create_datastore_from_dict_schema E self d) w →
  schema_uploadable E self file w.
Proof.
  intros (v & Hv & Hc)%returns_bind. destruct file as [e|v']; [done|].
  simpl in *. injection Hv as <-. by apply returns_create_datastore_from_dict_schema.
Qed.

Lemma returns_after_delete {A} (E : env) (self : Resource) (create : M A) (w : world) :
  returns (delete_datastore E self;; create) w →
  has_id self ∧ returns create (delete_datastore E self w).2.
Proof.
  intros ([] & Hdel & Hc)%returns_bind. split; [|done].
  apply (returns_delete_datastore E self w). by exists tt.
Qed.

Lemma collect_readable (cfg : Configuration) (result : value) (w : world) :
  returns (collect cfg result) w → readable result.
Proof.
  unfold returns, collect, readable. intros [rs Hrs].
  destruct (truthy result) eqn:Htr; [|by left]. right.
  rewrite bind_run in Hrs. destruct result as [| | | | |d]; try done.
  exists d. split; [done|]. simpl in Hrs.
  destruct (d !! "count") as [c|] eqn:Hc; [|by left]. simpl in Hrs.
  destruct (truthy c) eqn:Hct; [|right; left; eauto].
  right. right. rewrite bind_run in Hrs. unfold getitem in Hrs.
  destruct (d !! "results") as [results|] eqn:Hres; [|done]. simpl in Hrs.
  exists c, results. split_and!; [done|done|done|].
  rewrite bind_run in Hrs. by destruct results.
Qed.

Lemma search_in_hdx_answer (E : env) (cfg : Configuration) (query : value)
    (kwargs : gmap string value) (w : world) (a : string) (p : gmap string value)
    (r : reply) :
  EvPost a p r ∈ drop (length (trace w)) (trace (search_in_hdx E cfg query kwargs w).2) →
  search_in_hdx E cfg query kwargs w
  = match read_outcome r with
    | inl e => (inl e, World (trace w ++ [EvPost a p r]) (files w))
    | inr (_, result) => collect cfg result (World (trace w ++ [EvPost a p r]) (files w))
    end.
Proof.
  rewrite search_run.
  set (r0 := hdxsite E (trace w) "resource_show" {["query" := query]}).
  set (w' := World (trace w ++ [EvPost "resource_show" {["query" := query]} r0]) (files w)).
  assert (trace (match read_outcome r0 with
                 | inl e => (inl e, w')
                 | inr (_, result) => collect cfg result w'
                 end).2 = trace w') as ->.
  { destruct (read_outcome r0) as [e|[s result]]; [done|]. by rewrite pure_collect. }
  simpl. rewrite drop_app_length. intros Hin.
  apply list_elem_of_singleton in Hin. injection Hin as -> -> ->. done.
Qed.

Lemma update_continues {A} (E : env) (self : Resource) (create : M A) (w : world)
    (d : gmap string value) (id : value) :
  data self = VDict d → d !! "id" = Some id →
  hdxsite E (trace w) "datastore_delete"
    (<["resource_id" := id]> {["force" := VBool true]}) = NotFound →
  (delete_datastore E self;; create) w
  = create (World (trace w ++ [EvPost "datastore_delete"
                                 (<["resource_id" := id]> {["force" := VBool true]})
                                 NotFound])
                  (files w)).
Proof.
  intros Hd Hid Hnf. rewrite bind_run, (delete_datastore_run E self w d id Hd Hid). simpl.
  by rewrite Hnf.
Qed.

Lemma prompt_create_in_hdx (E : env) (required : list string) (self : Resource) :
  prompt (create_in_hdx E required self).
Proof.
  unfold create_in_hdx, _create_in_hdx. apply prompt_bind.
  { apply prompt_pure. intros w. unfold _check_required_fields.
    destruct (data self) as [| | | | |d]; try done.
    by destruct (forallb _ required). }
  intros d. apply prompt_bind.
  { destruct (d !! "id") as [v|]; [|by apply prompt_pure].
    apply prompt_bind; [by apply prompt_read|]. intros [success result].
    by apply prompt_pure. }
  intros found. apply prompt_bind; [|intros result; by apply prompt_pure].
  apply prompt_write. by destruct found; intros a [= <-].
Qed.

(** C7, counterexample: when the site answers [datastore_delete] with
    not-found, [delete_datastore] returns normally: the failed call is not
    surfaced to the caller. *)
Lemma delete_datastore_swallows_not_found :
  ¬ surfaces failed (delete_datastore datastore_missing example_resource).
Proof.
  intros H.
  destruct (H empty_world []
              (EvPost "datastore_delete"
                 (<["resource_id" := VStr "de6549d8"]> {["force" := VBool true]}) NotFound)
              []) as [[e He] _].
  - reflexivity.
  - reflexivity.
  - vm_compute in He. discriminate.
Qed.

(** C7, as amended: in every operation (read, search, create, update,
    delete, download and the datastore operations), a failure makes the
    operation raise, once and at once.  A failed call, other than an
    ordinary not-found answer to a read-style call ([resource_show], the
    search read, [datastore_delete]), makes the operation raise and is
    followed by no further call, so it is never retried.  A local failure
    makes it raise too: an operation returns normally only when the record
    has the fields and the identifier it needs, the URL is there and its
    file arrived, the schema was loaded and has a [schema], the file parsed
    and the table was created, and the search result could be read.  A
    not-found answer to a read-style call is not raised: [read_from_hdx]
    returns [None], [search_in_hdx] returns the empty list,
    [delete_datastore] logs it and returns normally, and the
    [update_datastore] methods go on to the create operation. *)
Theorem failures_surface_at_once (E : env) (cfg : Configuration) (self : Resource)
    (identifier query schema primary_key : value) (kwargs : gmap string value)
    (path : string) (target : option string) (required : list string) :
  let topline := script_dir_plus_file E "../hdx_datasource_topline.yml" in
  let after_delete w := (delete_datastore E self w).2 in
  let deleted w id :=
    World (trace w ++ [EvPost "datastore_delete"
                         (<["resource_id" := id]> {["force" := VBool true]}) NotFound])
          (files w) in
  (surfaces fatal (read_from_hdx E cfg identifier) ∧
   surfaces fatal (search_in_hdx E cfg query kwargs) ∧
   surfaces fatal (create_in_hdx E required self) ∧
   surfaces fatal (update_in_hdx E self) ∧
   surfaces fatal (delete_from_hdx E self) ∧
   surfaces fatal (download E self target) ∧
   surfaces fatal (delete_datastore E self) ∧
   surfaces fatal (create_datastore E self schema primary_key) ∧
   surfaces fatal (create_datastore_from_dict_schema E self schema) ∧
   surfaces fatal (create_datastore_from_yaml_schema E self path) ∧
   surfaces fatal (create_datastore_for_topline E self) ∧
   surfaces fatal (create_datastore_from_json_schema E self path) ∧
   surfaces fatal (update_datastore E self schema primary_key) ∧
   surfaces fatal (update_datastore_from_yaml_schema E self path) ∧
   surfaces fatal (update_datastore_for_topline E self) ∧
   surfaces fatal (update_datastore_from_json_schema E self path)) ∧
  ((∀ w a p result,
      returns (search_in_hdx E cfg query kwargs) w →
      EvPost a p (Success result)
        ∈ drop (length (trace w)) (trace (search_in_hdx E cfg query kwargs w).2) →
      readable result) ∧
   (∀ w, returns (create_in_hdx E required self) w → has_fields required self) ∧
   (∀ w, returns (update_in_hdx E self) w → identified self) ∧
   (∀ w, returns (delete_from_hdx E self) w → identified self) ∧
   (∀ w, returns (download E self target) w → downloadable E self target w) ∧
   (∀ w, returns (delete_datastore E self) w → has_id self) ∧
   (∀ w, returns (create_datastore E self schema primary_key) w →
         uploadable E self schema primary_key w) ∧
   (∀ w v, returns (create_datastore_from_dict_schema E self v) w →
           schema_uploadable E self (inr v) w) ∧
   (∀ w, returns (create_datastore_from_yaml_schema E self path) w →
         schema_uploadable E self (load_yaml E path) w) ∧
   (∀ w, returns (create_datastore_for_topline E self) w →
         schema_uploadable E self (load_yaml E topline) w) ∧
   (∀ w, returns (create_datastore_from_json_schema E self path) w →
         schema_uploadable E self (load_json E path) w) ∧
   (∀ w, returns (update_datastore E self schema primary_key) w →
         has_id self ∧ uploadable E self schema primary_key (after_delete w)) ∧
   (∀ w, returns (update_datastore_from_yaml_schema E self path) w →
         has_id self ∧ schema_uploadable E self (load_yaml E path) (after_delete w)) ∧
   (∀ w, returns (update_datastore_for_topline E self) w →
         has_id self ∧ schema_uploadable E self (load_yaml E topline) (after_delete w)) ∧
   (∀ w, returns (update_datastore_from_json_schema E self path) w →
         has_id self ∧ schema_uploadable E self (load_json E path) (after_delete w))) ∧
  ((∀ w, hdxsite E (trace w) "resource_show" {["id" := identifier]} = NotFound →
         (read_from_hdx E cfg identifier w).1 = inr None) ∧
   (∀ w a p,
      EvPost a p NotFound
        ∈ drop (length (trace w)) (trace (search_in_hdx E cfg query kwargs w).2) →
      (search_in_hdx E cfg query kwargs w).1 = inr []) ∧
   (∀ w d id,
      data self = VDict d → d !! "id" = Some id →
      hdxsite E (trace w) "datastore_delete"
        (<["resource_id" := id]> {["force" := VBool true]}) = NotFound →
      (delete_datastore E self w).1 = inr tt ∧
      update_datastore E self schema primary_key w
      = create_datastore E self schema primary_key (deleted w id) ∧
      update_datastore_from_yaml_schema E self path w
      = create_datastore_from_yaml_schema E self path (deleted w id) ∧
      update_datastore_for_topline E self w
      = create_datastore_for_topline E self (deleted w id) ∧
      update_datastore_from_json_schema E self path w
      = create_datastore_from_json_schema E self path (deleted w id))).
Proof.
  intros topline after_delete deleted. split; [|split].
  - split_and!; apply prompt_surfaces.
    + apply prompt_read_from_hdx.
    + apply prompt_search_in_hdx.
    + apply prompt_create_in_hdx.
    + apply prompt_update_in_hdx.
    + apply prompt_delete_from_hdx.
    + apply prompt_download.
    + apply prompt_delete_datastore.
    + apply prompt_create_datastore.
    + apply prompt_create_datastore_from_dict_schema.
    + apply prompt_create_datastore_from_yaml_schema.
    + apply prompt_create_datastore_for_topline.
    + apply prompt_create_datastore_from_json_schema.
    + apply prompt_bind; [apply prompt_delete_datastore|]. intros _.
      apply prompt_create_datastore.
    + apply prompt_bind; [apply prompt_delete_datastore|]. intros _.
      apply prompt_create_datastore_from_yaml_schema.
    + apply prompt_bind; [apply prompt_delete_datastore|]. intros _.
      apply prompt_create_datastore_for_topline.
    + apply prompt_bind; [apply prompt_delete_datastore|]. intros _.
      apply prompt_create_datastore_from_json_schema.
  - split_and!.
    + intros w a p result Hret Hin. unfold returns in Hret.
      rewrite (search_in_hdx_answer E cfg query kwargs w a p _ Hin) in Hret. simpl in Hret.
      by eapply collect_readable.
    + apply returns_create_in_hdx.
    + apply returns_update_in_hdx.
    + apply returns_delete_from_hdx.
    + apply returns_download.
    + apply returns_delete_datastore.
    + apply returns_create_datastore.
    + intros w v. apply returns_create_datastore_from_dict_schema.
    + intros w. apply returns_loaded.
    + intros w. apply returns_loaded.
    + intros w. apply returns_loaded.
    + intros w [Hid Hc]%returns_after_delete. split; [done|].
      by apply returns_create_datastore.
    + intros w [Hid Hc]%returns_after_delete. split; [done|]. by apply returns_loaded.
    + intros w [Hid Hc]%returns_after_delete. split; [done|]. by apply returns_loaded.
    + intros w [Hid Hc]%returns_after_delete. split; [done|]. by apply returns_loaded.
  - split_and!.
    + intros w Hnf. unfold read_from_hdx, _load_from_hdx.
      rewrite !bind_run, read_run. simpl.
      change (<["id" := identifier]> ∅) with ({["id" := identifier]} : gmap string value).
      by rewrite Hnf.
    + intros w a p Hin.
      by rewrite (search_in_hdx_answer E cfg query kwargs w a p _ Hin).
    + intros w d id Hd Hid Hnf. subst deleted. simpl. split_and!.
      * rewrite (delete_datastore_run E self w d id Hd Hid). simpl. by rewrite Hnf.
      * by apply (update_continues E self _ w d id).
      * by apply (update_continues E self _ w d id).
      * by apply (update_continues E self _ w d id).
      * by apply (update_continues E self _ w d id).
Qed.

Lemma failures_surface_at_once_witness :
  (∃ e, (create_datastore refusing_upserts example_resource (VList []) VNone empty_world).1
        = inl e) ∧
  uploadable accepting example_resource (VList []) VNone empty_world ∧
  (delete_datastore datastore_missing example_resource empty_world).1 = inr tt.
Proof.
  pose proof (failures_surface_at_once refusing_upserts "test" example_resource VNone VNone
                (VList []) VNone ∅ "schema.yml" None ["name"])
    as ((_ & _ & _ & _ & _ & _ & _ & Hc & _) & _).
  pose proof (failures_surface_at_once accepting "test" example_resource VNone VNone
                (VList []) VNone ∅ "schema.yml" None ["name"])
    as (_ & (_ & _ & _ & _ & _ & _ & Hu & _) & _).
  pose proof (failures_surface_at_once datastore_missing "test" example_resource VNone VNone
                (VList []) VNone ∅ "schema.yml" None ["name"])
    as (_ & _ & (_ & _ & Hd)).
  split_and!.
  - refine (proj1 (Hc empty_world
             [EvDownload (VStr "http://resource1.csv") None (Some "/tmp/resource1.csv");
              EvPost "datastore_create"
                (create_payload (VStr "de6549d8") (VList []) VNone) (Success (VDict ∅))]
             (EvPost "datastore_upsert" (upsert_payload (VStr "de6549d8") example_rows)
                (Failure "Validation Error"))
             [EvUnlink "/tmp/resource1.csv"] _ _)).
    + vm_compute. reflexivity.
    + reflexivity.
  - apply (Hu empty_world). exists tt. vm_compute. reflexivity.
  - refine (proj1 (Hd empty_world example_record (VStr "de6549d8") _ _ _)); reflexivity.
Defined.

(** ** Messages *)

Example upload_failed_string :
  upload_failed (VStr "http://resource1.csv")
  = "Upload to datastore of http://resource1.csv failed!".
Proof. reflexivity. Qed.

Example upload_failed_number :
  upload_failed (VInt 5) = "Upload to datastore of 5 failed!".
Proof. vm_compute. reflexivity. Qed.

Example pystr_list :
  pystr (VList [VInt (-12); VStr "a"; VNone; VBool true; VDict {["k" := VList []]}])
  = "[-12, 'a', None, True, {'k': []}]".
Proof. vm_compute. reflexivity. Qed.

Example create_in_hdx_new_record :
  create_in_hdx accepting ["name"] (mkResource "test" (VDict {["name" := VStr "Resource1"]}))
    empty_world
  = (inr (mkResource "test" (VDict ∅)),
     World [EvPost "resource_create" {["name" := VStr "Resource1"]} (Success (VDict ∅))] ∅).
Proof. vm_compute. reflexivity. Qed.

Example create_in_hdx_missing_field :
  create_in_hdx accepting ["name"] unsaved_resource empty_world
  = (inl (HDXError "Field missing in resource" None), empty_world).
Proof. vm_compute. reflexivity. Qed.
